(** * ScalableBackendStack: the deployment descriptor and its entry point

    A shallow embedding of [scalable-backend-stack.ts] (the constructor of
    [ScalableBackendStack]) and of [app.ts] (the entry point).

    The stack constructor is a straight-line sequence of [new X(this, id,
    props)] calls and of a few mutating method calls on the objects created
    before ([addIngressRule], [connections.allowFrom], [grantReadWrite],
    [scaleOnMetric], ...).  Each construct is a record of the properties the
    source passes; the stack is the ordered list of its child constructs,
    keyed by construct path; a TypeScript variable holding a construct is the
    path of that construct, and a mutating method call rewrites the record
    stored under that path.  A call the library refuses raises its error and
    ends the constructor there; the stack keeps what was declared before. *)

From Stdlib Require Import ZArith QArith String List Bool Lia Lqa.
From stdpp Require Import base option list strings gmap.
From stdpp Require Import pretty.

Local Open Scope string_scope.
Local Open Scope Z_scope.

(** ** Values shared by several constructs *)

(** A construct held in a TypeScript variable: its path below the stack. *)
Definition Ref := string.

(** [scope/id]: the path of a construct created below another construct. *)
Definition child_path (scope : Ref) (id : string) : Ref :=
  String.append scope (String.append "/" id).

(** A string whose parts may only be known at deployment time: a template
    literal over plain text, [this.account], [this.region] and attributes of
    other constructs ([alb.loadBalancerDnsName], ...). *)
Inductive StrPart : Type :=
| Lit (s : string)
| ThisAccount
| ThisRegion
| Attr (owner : Ref) (attr : string).

Definition StrVal := list StrPart.

Inductive RemovalPolicy := DESTROY | RETAIN | SNAPSHOT.

Inductive SubnetType := PUBLIC | PRIVATE_WITH_EGRESS | PRIVATE_ISOLATED.

Definition SubnetType_eqb (a b : SubnetType) : bool :=
  match a, b with
  | PUBLIC, PUBLIC | PRIVATE_WITH_EGRESS, PRIVATE_WITH_EGRESS
  | PRIVATE_ISOLATED, PRIVATE_ISOLATED => true
  | _, _ => false
  end.

(** [{ subnetType: ... }] *)
Record SubnetSelection := { sel_subnetType : SubnetType }.

Inductive InstanceClass := T3 | M5.
Inductive InstanceSize := MICRO | SMALL | MEDIUM.

(** [ec2.InstanceType.of(class, size)] *)
Record InstanceType := InstanceType_of
  { instanceClass : InstanceClass; instanceSize : InstanceSize }.

(** [cdk.Duration] *)
Inductive Duration := Duration_seconds (n : Z) | Duration_minutes (n : Z).

Definition toSeconds (d : Duration) : Z :=
  match d with
  | Duration_seconds n => n
  | Duration_minutes n => 60 * n
  end.

(** [ec2.Port] *)
Inductive Port := Port_tcp (p : Z) | Port_allTraffic.

(** [ec2.Peer.anyIpv4()] or another security group used as a peer. *)
Inductive Peer := Peer_anyIpv4 | Peer_securityGroup (sg : Ref).

Inductive ApplicationProtocol := AP_HTTP | AP_HTTPS.
Inductive Protocol := P_HTTP | P_HTTPS | P_TCP.

(** [group.metricCpuUtilization()] *)
Inductive Metric := metricCpuUtilization (group : Ref).

Definition Metric_group (m : Metric) : Ref :=
  match m with metricCpuUtilization g => g end.

(** ** The construct records, one module per construct class *)

Module Vpc.
Record SubnetConfiguration := {
  cidrMask : Z;
  name : string;
  subnetType : SubnetType }.

Record props := {
  maxAzs : Z;
  natGateways : Z;
  subnetConfiguration : list SubnetConfiguration }.

(** The subnet groups of a network that a selection by type names. *)
Definition selectSubnets (v : props) (s : SubnetSelection)
  : list SubnetConfiguration :=
  List.filter (fun c => SubnetType_eqb (subnetType c) (sel_subnetType s))
              (subnetConfiguration v).
End Vpc.

Module Bucket.
Inductive BucketEncryption := UNENCRYPTED | S3_MANAGED | KMS_MANAGED | KMS.
Inductive BlockPublicAccess := BLOCK_ALL | BLOCK_ACLS.

Record props := {
  bucketName : StrVal;
  versioned : bool;
  encryption : BucketEncryption;
  blockPublicAccess : BlockPublicAccess;
  removalPolicy : RemovalPolicy }.
End Bucket.

Module SubnetGroup.
Record props := {
  vpc : Ref;
  description : string;
  vpcSubnets : SubnetSelection }.
End SubnetGroup.

Module Secret.
Record SecretStringGenerator := {
  (* the object handed to [JSON.stringify] *)
  secretStringTemplate : list (string * string);
  generateStringKey : string;
  excludeCharacters : string }.

Record props := { generateSecretString : SecretStringGenerator }.
End Secret.

Module DatabaseInstance.
Inductive PostgresEngineVersion := VER_15_4 | VER_16_1.
Inductive DatabaseInstanceEngine := postgres (version : PostgresEngineVersion).
Inductive Credentials := fromSecret (secret : Ref).

(** One [connections.allowFrom(peer, port)] call. *)
Record Connection := { conn_peer : Ref; conn_port : Port }.

Record props := {
  engine : DatabaseInstanceEngine;
  instanceType : InstanceType;
  vpc : Ref;
  subnetGroup : Ref;
  credentials : Credentials;
  multiAz : bool;
  allocatedStorage : Z;
  storageEncrypted : bool;
  deletionProtection : bool;
  removalPolicy : RemovalPolicy;
  (* filled by [connections.allowFrom] *)
  connections : list Connection }.

Definition allowFrom (peer : Ref) (port : Port) (d : props) : props :=
  {| engine := engine d; instanceType := instanceType d; vpc := vpc d;
     subnetGroup := subnetGroup d; credentials := credentials d;
     multiAz := multiAz d; allocatedStorage := allocatedStorage d;
     storageEncrypted := storageEncrypted d;
     deletionProtection := deletionProtection d;
     removalPolicy := removalPolicy d;
     connections := connections d ++ [{| conn_peer := peer; conn_port := port |}] |}.
End DatabaseInstance.

Module SecurityGroup.
Record IngressRule := {
  peer : Peer;
  port : Port;
  rule_description : string }.

Record props := {
  vpc : Ref;
  description : string;
  allowAllOutbound : bool;
  (* filled by [addIngressRule] *)
  ingressRules : list IngressRule }.

Definition addIngressRule (p : Peer) (c : Port) (d : string) (g : props)
  : props :=
  {| vpc := vpc g; description := description g;
     allowAllOutbound := allowAllOutbound g;
     ingressRules := ingressRules g
       ++ [{| peer := p; port := c; rule_description := d |}] |}.

(** What a group admits from a given peer: the port of every rule it holds
    for that peer, a rule for all traffic included. *)
Definition admittedFrom (p : Peer) (g : props) : list Port :=
  flat_map (fun r =>
    match peer r, p with
    | Peer_anyIpv4, Peer_anyIpv4 => [port r]
    | Peer_securityGroup a, Peer_securityGroup b =>
        if String.eqb a b then [port r] else []
    | _, _ => []
    end) (ingressRules g).
End SecurityGroup.

Module Role.
(** One [dataBucket.grantReadWrite(role)] or [dbSecret.grantRead(role)]
    call, kept with the role it is given to. *)
Inductive Grant :=
| BucketReadWrite (bucket : Ref)
| SecretRead (secret : Ref).

Record props := {
  assumedBy : string;               (* new iam.ServicePrincipal(...) *)
  managedPolicies : list string;    (* fromAwsManagedPolicyName(...) *)
  (* filled by [grantReadWrite] / [grantRead] *)
  grants : list Grant }.

Definition grant (g : Grant) (p : props) : props :=
  {| assumedBy := assumedBy p; managedPolicies := managedPolicies p;
     grants := grants p ++ [g] |}.
End Role.

Module UserData.
(** [ec2.UserData.forLinux()]: the list of shell commands. *)
Record t := { commands : list string }.
Definition forLinux : t := {| commands := [] |}.
Definition addCommands (cs : list string) (u : t) : t :=
  {| commands := commands u ++ cs |}.
End UserData.

Module LaunchTemplate.
Inductive MachineImage := latestAmazonLinux2.

Record props := {
  instanceType : InstanceType;
  machineImage : MachineImage;
  securityGroup : Ref;
  role : Ref;
  userData : UserData.t }.
End LaunchTemplate.

Module AutoScalingGroup.
(** [autoscaling.HealthCheck] *)
Inductive HealthCheck :=
| HealthCheck_ec2
| HealthCheck_elb (grace : Duration).

Record props := {
  vpc : Ref;
  launchTemplate : Ref;
  minCapacity : Z;
  maxCapacity : Z;
  desiredCapacity : Z;
  vpcSubnets : SubnetSelection;
  healthCheck : HealthCheck }.
End AutoScalingGroup.

Module StepScalingPolicy.
Inductive AdjustmentType :=
  CHANGE_IN_CAPACITY | PERCENT_CHANGE_IN_CAPACITY | EXACT_CAPACITY.

(** [{ lower?, upper?, change }] *)
Record ScalingInterval := {
  lower : option Z;
  upper : option Z;
  change : Z }.

(** What [group.scaleOnMetric(id, props)] records; [autoScalingGroup] is
    the receiver of the call. *)
Record props := {
  autoScalingGroup : Ref;
  metric : Metric;
  scalingSteps : list ScalingInterval;
  adjustmentType : AdjustmentType }.

(** A metric value (a utilization, not necessarily whole) lies in an
    interval when it is at or above the lower bound and below the upper
    bound; an absent bound does not restrict. *)
Definition inInterval (i : ScalingInterval) (v : Q) : bool :=
  match lower i with Some l => Qle_bool (inject_Z l) v | None => true end
  && match upper i with
     | Some u => negb (Qle_bool (inject_Z u) v)
     | None => true
     end.

(** The capacity change the step list prescribes at a metric value: the
    change of the first interval containing it, none (0) outside all. *)
Fixpoint adjustmentAt (steps : list ScalingInterval) (v : Q) : Z :=
  match steps with
  | [] => 0
  | i :: rest => if inInterval i v then change i else adjustmentAt rest v
  end.
End StepScalingPolicy.

Module ApplicationLoadBalancer.
Record props := {
  vpc : Ref;
  internetFacing : bool;
  securityGroup : Ref;
  vpcSubnets : SubnetSelection }.
End ApplicationLoadBalancer.

Module ApplicationTargetGroup.
(** The [healthCheck] object.  [port] is optional and the source does not
    give it: the check then goes to the port the targets receive traffic
    on. *)
Record HealthCheck := {
  enabled : bool;
  healthyHttpCodes : string;
  path : string;
  hc_protocol : Protocol;
  hc_port : option Z }.

Record props := {
  vpc : Ref;
  port : Z;
  protocol : ApplicationProtocol;
  targets : list Ref;
  healthCheck : HealthCheck }.

Definition healthCheckPort (g : props) : Z :=
  match hc_port (healthCheck g) with
  | Some p => p
  | None => port g
  end.
End ApplicationTargetGroup.

Module ApplicationListener.
(** What [alb.addListener(id, props)] records; [loadBalancer] is the
    receiver of the call. *)
Record props := {
  loadBalancer : Ref;
  port : Z;
  protocol : ApplicationProtocol;
  defaultTargetGroups : list Ref }.
End ApplicationListener.

Module HttpIntegration.
(** [new apigateway.HttpIntegration(url, options)]: a plain object, not a
    construct of the tree. *)
Record t := {
  url : StrVal;
  httpMethod : string;
  proxy : bool }.
End HttpIntegration.

Module RestApi.
Inductive Origins := ALL_ORIGINS | Origins_of (l : list string).
Inductive Methods := ALL_METHODS | Methods_of (l : list string).

Record CorsOptions := {
  allowOrigins : Origins;
  allowMethods : Methods }.

(** The argument of [api.root.addProxy]. *)
Record ProxyResourceOptions := {
  defaultIntegration : HttpIntegration.t;
  anyMethod : bool }.

Record props := {
  restApiName : string;
  description : string;
  defaultCorsPreflightOptions : CorsOptions;
  (* filled by [root.addProxy] *)
  rootProxies : list ProxyResourceOptions }.

Definition addProxy (o : ProxyResourceOptions) (a : props) : props :=
  {| restApiName := restApiName a; description := description a;
     defaultCorsPreflightOptions := defaultCorsPreflightOptions a;
     rootProxies := rootProxies a ++ [o] |}.
End RestApi.

Module Cluster.
Record props := { vpc : Ref; clusterName : string }.
End Cluster.

Module FargateTaskDefinition.
Record props := {
  memoryLimitMiB : Z;
  cpu : Z;
  taskRole : Ref }.
End FargateTaskDefinition.

Module ContainerDefinition.
Inductive ContainerImage := fromRegistry (name : string).
Inductive RetentionDays := ONE_DAY | ONE_WEEK | ONE_MONTH.
Inductive LogDriver :=
  awsLogs (streamPrefix : string) (logRetention : RetentionDays).

(** What [taskDefinition.addContainer(id, props)] records. *)
Record props := {
  taskDefinition : Ref;
  image : ContainerImage;
  command : list string;
  logging : LogDriver }.
End ContainerDefinition.

Module FargateService.
Record props := {
  cluster : Ref;
  taskDefinition : Ref;
  desiredCount : Z;
  vpcSubnets : SubnetSelection }.
End FargateService.

Module Dashboard.
Inductive Widget :=
| TextWidget (markdown : string)
| GraphWidget (title : string) (left : list Metric).

Record props := {
  dashboardName : string;
  (* the source passes none and never calls [addWidgets] *)
  widgets : list Widget }.
End Dashboard.

Module Alarm.
Inductive TreatMissingData := BREACHING | NOT_BREACHING | IGNORE | MISSING.

Record props := {
  metric : Metric;
  threshold : Z;
  evaluationPeriods : Z;
  treatMissingData : TreatMissingData;
  (* the source never calls [addAlarmAction] *)
  alarmActions : list Ref }.
End Alarm.

Module CfnOutput.
Record props := {
  value : StrVal;
  description : option string }.
End CfnOutput.

(** ** The descriptor tree *)

Inductive Resource : Type :=
| RVpc (p : Vpc.props)
| RBucket (p : Bucket.props)
| RSubnetGroup (p : SubnetGroup.props)
| RSecret (p : Secret.props)
| RDatabaseInstance (p : DatabaseInstance.props)
| RSecurityGroup (p : SecurityGroup.props)
| RRole (p : Role.props)
| RLaunchTemplate (p : LaunchTemplate.props)
| RAutoScalingGroup (p : AutoScalingGroup.props)
| RApplicationLoadBalancer (p : ApplicationLoadBalancer.props)
| RApplicationTargetGroup (p : ApplicationTargetGroup.props)
| RApplicationListener (p : ApplicationListener.props)
| RRestApi (p : RestApi.props)
| RCluster (p : Cluster.props)
| RFargateTaskDefinition (p : FargateTaskDefinition.props)
| RContainerDefinition (p : ContainerDefinition.props)
| RFargateService (p : FargateService.props)
| RDashboard (p : Dashboard.props)
| RAlarm (p : Alarm.props)
| RStepScalingPolicy (p : StepScalingPolicy.props)
| RCfnOutput (p : CfnOutput.props).

Inductive Kind :=
| KVpc | KBucket | KSubnetGroup | KSecret | KDatabaseInstance | KSecurityGroup
| KRole | KLaunchTemplate | KAutoScalingGroup | KApplicationLoadBalancer
| KApplicationTargetGroup | KApplicationListener | KRestApi | KCluster
| KFargateTaskDefinition | KContainerDefinition | KFargateService
| KDashboard | KAlarm | KStepScalingPolicy | KCfnOutput.

#[global] Instance Kind_eq_dec : EqDecision Kind.
Proof. solve_decision. Defined.

Definition kind_of (r : Resource) : Kind :=
  match r with
  | RVpc _ => KVpc
  | RBucket _ => KBucket
  | RSubnetGroup _ => KSubnetGroup
  | RSecret _ => KSecret
  | RDatabaseInstance _ => KDatabaseInstance
  | RSecurityGroup _ => KSecurityGroup
  | RRole _ => KRole
  | RLaunchTemplate _ => KLaunchTemplate
  | RAutoScalingGroup _ => KAutoScalingGroup
  | RApplicationLoadBalancer _ => KApplicationLoadBalancer
  | RApplicationTargetGroup _ => KApplicationTargetGroup
  | RApplicationListener _ => KApplicationListener
  | RRestApi _ => KRestApi
  | RCluster _ => KCluster
  | RFargateTaskDefinition _ => KFargateTaskDefinition
  | RContainerDefinition _ => KContainerDefinition
  | RFargateService _ => KFargateService
  | RDashboard _ => KDashboard
  | RAlarm _ => KAlarm
  | RStepScalingPolicy _ => KStepScalingPolicy
  | RCfnOutput _ => KCfnOutput
  end.

(** [account]/[region] of [props.env]; both may be [undefined]. *)
Record Environment := {
  account : option string;
  region : option string }.

Record StackProps := {
  env : option Environment;
  description : option string }.

(** A stack: what [super(scope, id, props)] keeps, and the constructs added
    to it since, oldest first. *)
Record Stack := {
  stackId : string;
  stackProps : option StackProps;
  children : list (Ref * Resource) }.

Definition lookup_child (t : list (Ref * Resource)) (r : Ref)
  : option Resource :=
  snd <$> List.find (fun n => String.eqb (fst n) r) t.

Definition alter_child (f : Resource -> Resource) (r : Ref)
    (t : list (Ref * Resource)) : list (Ref * Resource) :=
  List.map (fun n => if String.eqb (fst n) r then (fst n, f (snd n)) else n) t.

(** *** References between records *)

(** The constructs named inside a string value. *)
Definition StrVal_owners (v : StrVal) : list Ref :=
  flat_map (fun p => match p with Attr o _ => [o] | _ => [] end) v.

Definition any_kind (rs : list Ref) : list (Ref * option Kind) :=
  List.map (fun r => (r, None)) rs.

Definition of_kind (k : Kind) (rs : list Ref) : list (Ref * option Kind) :=
  List.map (fun r => (r, Some k)) rs.

(** Every reference a record holds to another construct, with the class the
    source's types require of the target (where a class is required). *)
Definition refs (r : Resource) : list (Ref * option Kind) :=
  match r with
  | RVpc _ => []
  | RBucket p => any_kind (StrVal_owners (Bucket.bucketName p))
  | RSubnetGroup p => of_kind KVpc [SubnetGroup.vpc p]
  | RSecret _ => []
  | RDatabaseInstance p =>
      of_kind KVpc [DatabaseInstance.vpc p]
      ++ of_kind KSubnetGroup [DatabaseInstance.subnetGroup p]
      ++ of_kind KSecret
           [match DatabaseInstance.credentials p with
            | DatabaseInstance.fromSecret s => s end]
      ++ of_kind KSecurityGroup
           (List.map DatabaseInstance.conn_peer (DatabaseInstance.connections p))
  | RSecurityGroup p =>
      of_kind KVpc [SecurityGroup.vpc p]
      ++ of_kind KSecurityGroup
           (flat_map (fun i => match SecurityGroup.peer i with
                               | Peer_securityGroup g => [g]
                               | Peer_anyIpv4 => []
                               end) (SecurityGroup.ingressRules p))
  | RRole p =>
      flat_map (fun g => match g with
                         | Role.BucketReadWrite b => of_kind KBucket [b]
                         | Role.SecretRead s => of_kind KSecret [s]
                         end) (Role.grants p)
  | RLaunchTemplate p =>
      of_kind KSecurityGroup [LaunchTemplate.securityGroup p]
      ++ of_kind KRole [LaunchTemplate.role p]
  | RAutoScalingGroup p =>
      of_kind KVpc [AutoScalingGroup.vpc p]
      ++ of_kind KLaunchTemplate [AutoScalingGroup.launchTemplate p]
  | RApplicationLoadBalancer p =>
      of_kind KVpc [ApplicationLoadBalancer.vpc p]
      ++ of_kind KSecurityGroup [ApplicationLoadBalancer.securityGroup p]
  | RApplicationTargetGroup p =>
      of_kind KVpc [ApplicationTargetGroup.vpc p]
      ++ of_kind KAutoScalingGroup (ApplicationTargetGroup.targets p)
  | RApplicationListener p =>
      of_kind KApplicationLoadBalancer [ApplicationListener.loadBalancer p]
      ++ of_kind KApplicationTargetGroup
           (ApplicationListener.defaultTargetGroups p)
  | RRestApi p =>
      any_kind (flat_map (fun o => StrVal_owners
                  (HttpIntegration.url (RestApi.defaultIntegration o)))
                  (RestApi.rootProxies p))
  | RCluster p => of_kind KVpc [Cluster.vpc p]
  | RFargateTaskDefinition p =>
      of_kind KRole [FargateTaskDefinition.taskRole p]
  | RContainerDefinition p =>
      of_kind KFargateTaskDefinition [ContainerDefinition.taskDefinition p]
  | RFargateService p =>
      of_kind KCluster [FargateService.cluster p]
      ++ of_kind KFargateTaskDefinition [FargateService.taskDefinition p]
  | RDashboard p =>
      of_kind KAutoScalingGroup
        (flat_map (fun w => match w with
                            | Dashboard.TextWidget _ => []
                            | Dashboard.GraphWidget _ ms =>
                                List.map Metric_group ms
                            end) (Dashboard.widgets p))
  | RAlarm p =>
      of_kind KAutoScalingGroup [Metric_group (Alarm.metric p)]
      ++ any_kind (Alarm.alarmActions p)
  | RStepScalingPolicy p =>
      of_kind KAutoScalingGroup [StepScalingPolicy.autoScalingGroup p]
      ++ of_kind KAutoScalingGroup [Metric_group (StepScalingPolicy.metric p)]
  | RCfnOutput p => any_kind (StrVal_owners (CfnOutput.value p))
  end.

(** A reference resolves in a tree when it names another record of the tree,
    of the required class. *)
Definition ref_ok (t : list (Ref * Resource)) (self : Ref)
    (x : Ref * option Kind) : bool :=
  negb (String.eqb (fst x) self)
  && match lookup_child t (fst x), snd x with
     | Some res, Some k => bool_decide (kind_of res = k)
     | Some _, None => true
     | None, _ => false
     end.

Definition refs_resolve (t : list (Ref * Resource)) : bool :=
  forallb (fun n => forallb (ref_ok t (fst n)) (refs (snd n))) t.

(** The records of a tree that hold a reference to [r]. *)
Definition referrers (t : list (Ref * Resource)) (r : Ref) : list Ref :=
  List.map fst
    (List.filter (fun n => existsb (fun x => String.eqb (fst x) r)
                                   (refs (snd n))) t).

(** ** Construction: state passing over the stack under construction *)

(** The exceptions construction can end with.  Two are raised by the
    synthesizer library: it refuses a second construct under a path already
    taken, and it refuses a step scaling policy with fewer than two steps
    ("You must supply at least 2 intervals for autoscaling").  The third is
    what a [throw] statement of the repository's own code would raise; the
    source has none. *)
Inductive Error :=
| DuplicateConstruct (path : Ref)
| TooFewIntervals (path : Ref) (given : nat)
| Thrown (message : string).

Inductive Origin := Library | Repository.

Definition raised_by (e : Error) : Origin :=
  match e with
  | DuplicateConstruct _ | TooFewIntervals _ _ => Library
  | Thrown _ => Repository
  end.

(** Construction code runs on the stack under construction; an exception
    ends it and leaves the stack as it was when the exception was raised. *)
Definition Build (A : Type) : Type := Stack -> (Error + A) * Stack.

Definition ret {A} (a : A) : Build A := fun s => (inr a, s).

Definition raise {A} (e : Error) : Build A := fun s => (inl e, s).

Definition bind {A B} (m : Build A) (k : A -> Build B) : Build B :=
  fun s => match m s with
           | (inl e, s') => (inl e, s')
           | (inr a, s') => k a s'
           end.

Declare Scope build_scope.
Delimit Scope build_scope with build.
Notation "'let!' x ':=' m 'in' k" := (bind m (fun x => k))
  (at level 10, x name, m at level 100, k at level 200) : build_scope.
Notation "m ';;;' k" := (bind m (fun _ => k))
  (at level 100, k at level 200, right associativity) : build_scope.

(** [new X(this, id, props)], and the same below another construct
    ([alb.addListener(id, ...)], [taskDefinition.addContainer(id, ...)]). *)
Definition add_at (path : Ref) (r : Resource) : Build Ref :=
  fun s =>
    match lookup_child (children s) path with
    | Some _ => (inl (DuplicateConstruct path), s)
    | None =>
        (inr path, {| stackId := stackId s; stackProps := stackProps s;
                      children := children s ++ [(path, r)] |})
    end.

Definition new_ (id : string) (r : Resource) : Build Ref := add_at id r.

Definition new_under (scope : Ref) (id : string) (r : Resource) : Build Ref :=
  add_at (child_path scope id) r.

(** A mutating method call on a construct created before: the record kept
    under its path is rewritten, every holder of the path sees the change. *)
Definition update (r : Ref) (f : Resource -> Resource) : Build unit :=
  fun s => (inr tt, {| stackId := stackId s; stackProps := stackProps s;
                       children := alter_child f r (children s) |}).

(** [group.scaleOnMetric(id, { metric, scalingSteps, adjustmentType })]: a
    step scaling policy below the group.  The library's constructor of the
    policy first counts the steps and refuses fewer than two. *)
Definition scaleOnMetric (group : Ref) (id : string) (metric : Metric)
    (scalingSteps : list StepScalingPolicy.ScalingInterval)
    (adjustmentType : StepScalingPolicy.AdjustmentType) : Build Ref :=
  if (length scalingSteps <? 2)%nat
  then raise (TooFewIntervals (child_path group id) (length scalingSteps))
  else new_under group id (RStepScalingPolicy
         {| StepScalingPolicy.autoScalingGroup := group;
            StepScalingPolicy.metric := metric;
            StepScalingPolicy.scalingSteps := scalingSteps;
            StepScalingPolicy.adjustmentType := adjustmentType |}).

Definition onSecurityGroup (f : SecurityGroup.props -> SecurityGroup.props)
    (r : Resource) : Resource :=
  match r with RSecurityGroup g => RSecurityGroup (f g) | _ => r end.

Definition onDatabaseInstance
    (f : DatabaseInstance.props -> DatabaseInstance.props)
    (r : Resource) : Resource :=
  match r with RDatabaseInstance d => RDatabaseInstance (f d) | _ => r end.

Definition onRole (f : Role.props -> Role.props) (r : Resource) : Resource :=
  match r with RRole p => RRole (f p) | _ => r end.

Definition onRestApi (f : RestApi.props -> RestApi.props) (r : Resource)
  : Resource :=
  match r with RRestApi a => RRestApi (f a) | _ => r end.

(** ** The stack constructor *)

(** The double-quote character, for the string literals that contain it. *)
Definition dquote : string := String (Ascii.ascii_of_nat 34) EmptyString.

Definition PRIVATE : SubnetSelection :=
  {| sel_subnetType := PRIVATE_WITH_EGRESS |}.

Definition T3_MICRO : InstanceType := InstanceType_of T3 MICRO.

Local Open Scope build_scope.

(** The body of [constructor(scope, id, props)] after [super(...)], statement
    by statement. *)
Definition constructor_body : Build unit :=
  (* VPC with public and private subnets *)
  let! vpc := new_ "ScalableBackendVPC" (RVpc
    {| Vpc.maxAzs := 3;
       Vpc.natGateways := 2;
       Vpc.subnetConfiguration :=
         [ {| Vpc.cidrMask := 24; Vpc.name := "Public";
              Vpc.subnetType := PUBLIC |};
           {| Vpc.cidrMask := 24; Vpc.name := "Private-Backend";
              Vpc.subnetType := PRIVATE_WITH_EGRESS |};
           {| Vpc.cidrMask := 24; Vpc.name := "Private-Clients";
              Vpc.subnetType := PRIVATE_WITH_EGRESS |} ] |}) in
  (* S3 bucket for data storage *)
  let! dataBucket := new_ "DataBucket" (RBucket
    {| Bucket.bucketName :=
         [Lit "scalable-backend-data-"; ThisAccount; Lit "-"; ThisRegion];
       Bucket.versioned := true;
       Bucket.encryption := Bucket.S3_MANAGED;
       Bucket.blockPublicAccess := Bucket.BLOCK_ALL;
       Bucket.removalPolicy := DESTROY |}) in
  (* Database subnet group *)
  let! dbSubnetGroup := new_ "DatabaseSubnetGroup" (RSubnetGroup
    {| SubnetGroup.vpc := vpc;
       SubnetGroup.description := "Subnet group for RDS database";
       SubnetGroup.vpcSubnets := PRIVATE |}) in
  (* Database secret *)
  let! dbSecret := new_ "DatabaseSecret" (RSecret
    {| Secret.generateSecretString :=
         {| Secret.secretStringTemplate := [("username", "admin")];
            Secret.generateStringKey := "password";
            Secret.excludeCharacters := String.append dquote "@/\" |} |}) in
  (* RDS Database *)
  let! database := new_ "Database" (RDatabaseInstance
    {| DatabaseInstance.engine :=
         DatabaseInstance.postgres DatabaseInstance.VER_15_4;
       DatabaseInstance.instanceType := T3_MICRO;
       DatabaseInstance.vpc := vpc;
       DatabaseInstance.subnetGroup := dbSubnetGroup;
       DatabaseInstance.credentials := DatabaseInstance.fromSecret dbSecret;
       DatabaseInstance.multiAz := false;
       DatabaseInstance.allocatedStorage := 20;
       DatabaseInstance.storageEncrypted := true;
       DatabaseInstance.deletionProtection := false;
       DatabaseInstance.removalPolicy := DESTROY;
       DatabaseInstance.connections := [] |}) in
  (* Security group for backend instances *)
  let! backendSecurityGroup := new_ "BackendSecurityGroup" (RSecurityGroup
    {| SecurityGroup.vpc := vpc;
       SecurityGroup.description := "Security group for backend instances";
       SecurityGroup.allowAllOutbound := true;
       SecurityGroup.ingressRules := [] |}) in
  (* Security group for ALB *)
  let! albSecurityGroup := new_ "ALBSecurityGroup" (RSecurityGroup
    {| SecurityGroup.vpc := vpc;
       SecurityGroup.description :=
         "Security group for Application Load Balancer";
       SecurityGroup.allowAllOutbound := true;
       SecurityGroup.ingressRules := [] |}) in
  update albSecurityGroup (onSecurityGroup (SecurityGroup.addIngressRule
    Peer_anyIpv4 (Port_tcp 80) "Allow HTTP traffic from anywhere")) ;;;
  update albSecurityGroup (onSecurityGroup (SecurityGroup.addIngressRule
    Peer_anyIpv4 (Port_tcp 443) "Allow HTTPS traffic from anywhere")) ;;;
  (* Allow ALB to communicate with backend instances *)
  update backendSecurityGroup (onSecurityGroup (SecurityGroup.addIngressRule
    (Peer_securityGroup albSecurityGroup) (Port_tcp 8080)
    "Allow traffic from ALB")) ;;;
  (* Allow backend instances to communicate with database *)
  update database (onDatabaseInstance
    (DatabaseInstance.allowFrom backendSecurityGroup (Port_tcp 5432))) ;;;
  (* IAM role for backend instances *)
  let! backendRole := new_ "BackendInstanceRole" (RRole
    {| Role.assumedBy := "ec2.amazonaws.com";
       Role.managedPolicies :=
         ["CloudWatchAgentServerPolicy"; "AmazonSSMManagedInstanceCore"];
       Role.grants := [] |}) in
  (* Grant backend instances access to S3 bucket and secrets *)
  update backendRole (onRole (Role.grant (Role.BucketReadWrite dataBucket))) ;;;
  update backendRole (onRole (Role.grant (Role.SecretRead dbSecret))) ;;;
  (* User data script for backend instances *)
  let userData := UserData.forLinux in
  let userData := UserData.addCommands
    [ "yum update -y";
      "yum install -y docker";
      "systemctl start docker";
      "systemctl enable docker";
      "usermod -a -G docker ec2-user";
      "wget https://s3.amazonaws.com/amazoncloudwatch-agent/amazon_linux/amd64/latest/amazon-cloudwatch-agent.rpm";
      "rpm -U ./amazon-cloudwatch-agent.rpm";
      "docker run -d -p 8080:8080 --name backend-app nginx:alpine" ]
    userData in
  (* Launch template for backend instances *)
  let! launchTemplate := new_ "BackendLaunchTemplate" (RLaunchTemplate
    {| LaunchTemplate.instanceType := T3_MICRO;
       LaunchTemplate.machineImage := LaunchTemplate.latestAmazonLinux2;
       LaunchTemplate.securityGroup := backendSecurityGroup;
       LaunchTemplate.role := backendRole;
       LaunchTemplate.userData := userData |}) in
  (* Auto Scaling Group *)
  let! autoScalingGroup := new_ "BackendAutoScalingGroup" (RAutoScalingGroup
    {| AutoScalingGroup.vpc := vpc;
       AutoScalingGroup.launchTemplate := launchTemplate;
       AutoScalingGroup.minCapacity := 2;
       AutoScalingGroup.maxCapacity := 10;
       AutoScalingGroup.desiredCapacity := 3;
       AutoScalingGroup.vpcSubnets := PRIVATE;
       AutoScalingGroup.healthCheck :=
         AutoScalingGroup.HealthCheck_elb (Duration_minutes 5) |}) in
  (* Application Load Balancer *)
  let! alb := new_ "ApplicationLoadBalancer" (RApplicationLoadBalancer
    {| ApplicationLoadBalancer.vpc := vpc;
       ApplicationLoadBalancer.internetFacing := true;
       ApplicationLoadBalancer.securityGroup := albSecurityGroup;
       ApplicationLoadBalancer.vpcSubnets := {| sel_subnetType := PUBLIC |} |}) in
  (* Target group for backend instances *)
  let! targetGroup := new_ "BackendTargetGroup" (RApplicationTargetGroup
    {| ApplicationTargetGroup.vpc := vpc;
       ApplicationTargetGroup.port := 8080;
       ApplicationTargetGroup.protocol := AP_HTTP;
       ApplicationTargetGroup.targets := [autoScalingGroup];
       ApplicationTargetGroup.healthCheck :=
         {| ApplicationTargetGroup.enabled := true;
            ApplicationTargetGroup.healthyHttpCodes := "200";
            ApplicationTargetGroup.path := "/health";
            ApplicationTargetGroup.hc_protocol := P_HTTP;
            ApplicationTargetGroup.hc_port := None |} |}) in
  (* ALB listener *)
  let! listener := new_under alb "Listener" (RApplicationListener
    {| ApplicationListener.loadBalancer := alb;
       ApplicationListener.port := 80;
       ApplicationListener.protocol := AP_HTTP;
       ApplicationListener.defaultTargetGroups := [targetGroup] |}) in
  (* API Gateway for REST API *)
  let! api := new_ "BackendAPI" (RRestApi
    {| RestApi.restApiName := "Scalable Backend API";
       RestApi.description := "REST API for scalable backend service";
       RestApi.defaultCorsPreflightOptions :=
         {| RestApi.allowOrigins := RestApi.ALL_ORIGINS;
            RestApi.allowMethods := RestApi.ALL_METHODS |};
       RestApi.rootProxies := [] |}) in
  (* API Gateway integration with ALB *)
  let integration :=
    {| HttpIntegration.url := [Lit "http://"; Attr alb "loadBalancerDnsName"];
       HttpIntegration.httpMethod := "ANY";
       HttpIntegration.proxy := true |} in
  update api (onRestApi (RestApi.addProxy
    {| RestApi.defaultIntegration := integration;
       RestApi.anyMethod := true |})) ;;;
  (* ECS Cluster for Fargate clients *)
  let! cluster := new_ "FargateCluster" (RCluster
    {| Cluster.vpc := vpc;
       Cluster.clusterName := "download-agents-cluster" |}) in
  (* IAM role for Fargate tasks *)
  let! fargateTaskRole := new_ "FargateTaskRole" (RRole
    {| Role.assumedBy := "ecs-tasks.amazonaws.com";
       Role.managedPolicies := [];
       Role.grants := [] |}) in
  (* Grant Fargate tasks access to S3 bucket *)
  update fargateTaskRole
    (onRole (Role.grant (Role.BucketReadWrite dataBucket))) ;;;
  (* Task definition for download agents *)
  let! taskDefinition := new_ "DownloadAgentTaskDefinition"
    (RFargateTaskDefinition
      {| FargateTaskDefinition.memoryLimitMiB := 512;
         FargateTaskDefinition.cpu := 256;
         FargateTaskDefinition.taskRole := fargateTaskRole |}) in
  (* Container definition for download agent *)
  let! container := new_under taskDefinition "DownloadAgentContainer"
    (RContainerDefinition
      {| ContainerDefinition.taskDefinition := taskDefinition;
         ContainerDefinition.image :=
           ContainerDefinition.fromRegistry "alpine:latest";
         ContainerDefinition.command :=
           [ "sh"; "-c";
             String.append "while true; do echo "
               (String.append dquote
                 (String.append "Download agent running..."
                   (String.append dquote "; sleep 60; done"))) ];
         ContainerDefinition.logging :=
           ContainerDefinition.awsLogs "download-agent"
             ContainerDefinition.ONE_WEEK |}) in
  (* Fargate service for download agents *)
  let! fargateService := new_ "DownloadAgentService" (RFargateService
    {| FargateService.cluster := cluster;
       FargateService.taskDefinition := taskDefinition;
       FargateService.desiredCount := 3;
       FargateService.vpcSubnets := PRIVATE |}) in
  (* CloudWatch Dashboard *)
  let! dashboard := new_ "ScalableBackendDashboard" (RDashboard
    {| Dashboard.dashboardName := "ScalableBackendMonitoring";
       Dashboard.widgets := [] |}) in
  (* CloudWatch Alarms *)
  let! cpuAlarm := new_ "HighCPUAlarm" (RAlarm
    {| Alarm.metric := metricCpuUtilization autoScalingGroup;
       Alarm.threshold := 80;
       Alarm.evaluationPeriods := 2;
       Alarm.treatMissingData := Alarm.NOT_BREACHING;
       Alarm.alarmActions := [] |}) in
  (* Auto Scaling policies *)
  let! scaleUpPolicy := scaleOnMetric autoScalingGroup "ScaleUpPolicy"
    (* metric *) (metricCpuUtilization autoScalingGroup)
    (* scalingSteps *)
    [ {| StepScalingPolicy.lower := None;
         StepScalingPolicy.upper := Some 50;
         StepScalingPolicy.change := 1 |};
      {| StepScalingPolicy.lower := Some 80;
         StepScalingPolicy.upper := None;
         StepScalingPolicy.change := 2 |} ]
    (* adjustmentType *) StepScalingPolicy.CHANGE_IN_CAPACITY in
  let! scaleDownPolicy := scaleOnMetric autoScalingGroup "ScaleDownPolicy"
    (* metric *) (metricCpuUtilization autoScalingGroup)
    (* scalingSteps *)
    [ {| StepScalingPolicy.lower := None;
         StepScalingPolicy.upper := Some 30;
         StepScalingPolicy.change := -1 |} ]
    (* adjustmentType *) StepScalingPolicy.CHANGE_IN_CAPACITY in
  (* Outputs *)
  new_ "LoadBalancerDNS" (RCfnOutput
    {| CfnOutput.value := [Attr alb "loadBalancerDnsName"];
       CfnOutput.description :=
         Some "DNS name of the Application Load Balancer" |}) ;;;
  new_ "APIGatewayURL" (RCfnOutput
    {| CfnOutput.value := [Attr api "url"];
       CfnOutput.description := Some "URL of the API Gateway" |}) ;;;
  new_ "S3BucketName" (RCfnOutput
    {| CfnOutput.value := [Attr dataBucket "bucketName"];
       CfnOutput.description := Some "Name of the S3 data bucket" |}) ;;;
  new_ "DatabaseEndpoint" (RCfnOutput
    {| CfnOutput.value := [Attr database "instanceEndpoint.hostname"];
       CfnOutput.description := Some "RDS database endpoint" |}) ;;;
  ret tt.

Local Close Scope build_scope.

(** [new cdk.App()]: the root scope, holding the stacks created under it. *)
Record App := { stacks : list Stack }.

Definition new_App : App := {| stacks := [] |}.

Definition App_has (scope : App) (id : string) : bool :=
  existsb (fun s => String.eqb (stackId s) id) (stacks scope).

(** [super(scope, id, props)]: the empty stack, unless [id] is taken. *)
Definition super (scope : App) (id : string) (props : option StackProps)
  : Error + Stack :=
  if App_has scope id then inl (DuplicateConstruct id)
  else inr {| stackId := id; stackProps := props; children := [] |}.

(** [new ScalableBackendStack(scope, id, props)]: the stack when the
    constructor returns, its exception otherwise, and the scope afterwards.
    [super] puts the stack under the scope before the body runs, so the
    scope holds it in either case, as the body left it. *)
Definition ScalableBackendStack (scope : App) (id : string)
    (props : option StackProps) : (Error + Stack) * App :=
  match super scope id props with
  | inl e => (inl e, scope)
  | inr this =>
      match constructor_body this with
      | (inl e, this') => (inl e, {| stacks := stacks scope ++ [this'] |})
      | (inr _, this') => (inr this', {| stacks := stacks scope ++ [this'] |})
      end
  end.

(** ** The entry point *)

(** What the entry point does to the outside: reading a variable of the
    process environment, and handing the application to the synthesizer. *)
Inductive Event :=
| GetEnv (name : string)
| Synth (app : App).

(** Entry-point code: reads the process environment, logs its events, and
    stops on an exception, which nothing in the script catches. *)
Definition IO (A : Type) : Type :=
  gmap string string -> list Event * (Error + A).

Definition io_ret {A} (a : A) : IO A := fun _ => ([], inr a).

Definition io_bind {A B} (m : IO A) (k : A -> IO B) : IO B :=
  fun e =>
    match m e with
    | (t, inl err) => (t, inl err)
    | (t, inr a) => let (t', r) := k a e in ((t ++ t')%list, r)
    end.

(** [process.env.NAME] *)
Definition getenv (name : string) : IO (option string) :=
  fun e => ([GetEnv name], inr (e !! name)).

(** A [new] at the top level of the script: an exception of the constructor
    ends the script; otherwise the script goes on with the application as
    the constructor left it. *)
Definition new_in {A} (r : (Error + A) * App) : IO App :=
  fun _ => ([], match fst r with
                | inl e => inl e
                | inr _ => inr (snd r)
                end).

(** [app.synth()] *)
Definition synth (app : App) : IO unit := fun _ => ([Synth app], inr tt).

Declare Scope io_scope.
Delimit Scope io_scope with io.
Notation "'let!' x ':=' m 'in' k" := (io_bind m (fun x => k))
  (at level 10, x name, m at level 100, k at level 200) : io_scope.

Definition main : IO unit :=
  (let app := new_App in
   let! account := getenv "CDK_DEFAULT_ACCOUNT" in
   let! region := getenv "CDK_DEFAULT_REGION" in
   let! app := new_in (ScalableBackendStack app "ScalableBackendStack" (Some
     {| env := Some {| account := account; region := region |};
        description := Some
          "Scalable backend service with Auto Scaling Group, ALB, and Fargate clients" |})) in
   synth app)%io.

(** ** Reading a tree *)

Definition asVpc (r : Resource) :=
  match r with RVpc p => Some p | _ => None end.
Definition asBucket (r : Resource) :=
  match r with RBucket p => Some p | _ => None end.
Definition asSubnetGroup (r : Resource) :=
  match r with RSubnetGroup p => Some p | _ => None end.
Definition asDatabaseInstance (r : Resource) :=
  match r with RDatabaseInstance p => Some p | _ => None end.
Definition asSecurityGroup (r : Resource) :=
  match r with RSecurityGroup p => Some p | _ => None end.
Definition asLaunchTemplate (r : Resource) :=
  match r with RLaunchTemplate p => Some p | _ => None end.
Definition asAutoScalingGroup (r : Resource) :=
  match r with RAutoScalingGroup p => Some p | _ => None end.
Definition asApplicationLoadBalancer (r : Resource) :=
  match r with RApplicationLoadBalancer p => Some p | _ => None end.
Definition asApplicationTargetGroup (r : Resource) :=
  match r with RApplicationTargetGroup p => Some p | _ => None end.
Definition asApplicationListener (r : Resource) :=
  match r with RApplicationListener p => Some p | _ => None end.
Definition asDashboard (r : Resource) :=
  match r with RDashboard p => Some p | _ => None end.
Definition asAlarm (r : Resource) :=
  match r with RAlarm p => Some p | _ => None end.
Definition asStepScalingPolicy (r : Resource) :=
  match r with RStepScalingPolicy p => Some p | _ => None end.
Definition asCfnOutput (r : Resource) :=
  match r with RCfnOutput p => Some p | _ => None end.

(** The records of one class in a tree, in declaration order. *)
Definition select {A} (as_ : Resource -> option A)
    (t : list (Ref * Resource)) : list (Ref * A) :=
  flat_map (fun n => match as_ (snd n) with
                     | Some a => [(fst n, a)]
                     | None => []
                     end) t.

(** The record of a class kept under a path. *)
Definition get {A} (as_ : Resource -> option A)
    (t : list (Ref * Resource)) (r : Ref) : option A :=
  match lookup_child t r with
  | Some res => as_ res
  | None => None
  end.

(** The outputs a stack declares. *)
Definition Outputs (s : Stack) : list (Ref * CfnOutput.props) :=
  select asCfnOutput (children s).

(** The applications handed to the synthesizer, and the variables read. *)
Definition synthesized (t : list Event) : list App :=
  flat_map (fun e => match e with Synth a => [a] | GetEnv _ => [] end) t.

Definition env_reads (t : list Event) : list string :=
  flat_map (fun e => match e with GetEnv n => [n] | Synth _ => [] end) t.

(** The children the constructor body leaves in a stack that was empty,
    and how the body ends there. *)
Definition descriptor_tree : list (Ref * Resource) :=
  children (snd (constructor_body
    {| stackId := ""; stackProps := None; children := [] |})).

Definition constructor_end : Error + unit :=
  fst (constructor_body {| stackId := ""; stackProps := None; children := [] |}).

(** * Statements about a constructed tree *)

(** A stack with the given children. *)
Definition mkStack (id : string) (props : option StackProps)
    (t : list (Ref * Resource)) : Stack :=
  {| stackId := id; stackProps := props; children := t |}.

(** The properties the entry point passes. *)
Definition entry_props (account region : option string) : StackProps :=
  {| env := Some {| account := account; region := region |};
     description := Some
       "Scalable backend service with Auto Scaling Group, ALB, and Fargate clients" |}.

(** The settings of the one bucket of a tree. *)
Definition storage_settings (t : list (Ref * Resource)) : Prop :=
  exists b,
    select asBucket t = [("DataBucket", b)] /\
    Bucket.versioned b = true /\
    Bucket.encryption b = Bucket.S3_MANAGED /\
    Bucket.blockPublicAccess b = Bucket.BLOCK_ALL.

(** What the bucket and the database of a tree declare for teardown. *)
Definition destroyed_on_teardown (t : list (Ref * Resource)) : Prop :=
  exists b d,
    select asBucket t = [("DataBucket", b)] /\
    select asDatabaseInstance t = [("Database", d)] /\
    Bucket.removalPolicy b = DESTROY /\
    DatabaseInstance.removalPolicy d = DESTROY /\
    DatabaseInstance.deletionProtection d = false /\
    DatabaseInstance.multiAz d = false.

(** The paths of the two policies created by [scaleOnMetric]. *)
Definition ScaleUpPolicy : Ref :=
  child_path "BackendAutoScalingGroup" "ScaleUpPolicy".
Definition ScaleDownPolicy : Ref :=
  child_path "BackendAutoScalingGroup" "ScaleDownPolicy".

(** The scaling group of a tree, its launch template, and the step policies
    the tree holds on it. *)
Definition scaling_record_as_built (t : list (Ref * Resource)) : Prop :=
  exists asg lt up,
    select asAutoScalingGroup t = [("BackendAutoScalingGroup", asg)] /\
    get asLaunchTemplate t (AutoScalingGroup.launchTemplate asg) = Some lt /\
    AutoScalingGroup.minCapacity asg = 2 /\
    AutoScalingGroup.desiredCapacity asg = 3 /\
    AutoScalingGroup.maxCapacity asg = 10 /\
    AutoScalingGroup.minCapacity asg <= AutoScalingGroup.desiredCapacity asg
      <= AutoScalingGroup.maxCapacity asg /\
    (exists grace,
       AutoScalingGroup.healthCheck asg = AutoScalingGroup.HealthCheck_elb grace /\
       toSeconds grace = 300) /\
    select asStepScalingPolicy t = [(ScaleUpPolicy, up)] /\
    StepScalingPolicy.autoScalingGroup up = "BackendAutoScalingGroup" /\
    StepScalingPolicy.metric up
      = metricCpuUtilization "BackendAutoScalingGroup" /\
    length (StepScalingPolicy.scalingSteps up) = 2%nat /\
    Forall (fun i => StepScalingPolicy.lower i <> None \/
                     StepScalingPolicy.upper i <> None)
           (StepScalingPolicy.scalingSteps up).

(** What the step list of the scale-up policy of a tree prescribes at each
    value of the metric. *)
Definition scale_up_thresholds (t : list (Ref * Resource)) : Prop :=
  exists up,
    get asStepScalingPolicy t ScaleUpPolicy = Some up /\
    StepScalingPolicy.adjustmentType up = StepScalingPolicy.CHANGE_IN_CAPACITY /\
    (forall v : Q, (v < 50)%Q ->
       StepScalingPolicy.adjustmentAt (StepScalingPolicy.scalingSteps up) v = 1) /\
    (forall v : Q, (50 <= v)%Q -> (v < 80)%Q ->
       StepScalingPolicy.adjustmentAt (StepScalingPolicy.scalingSteps up) v = 0) /\
    (forall v : Q, (80 <= v)%Q ->
       StepScalingPolicy.adjustmentAt (StepScalingPolicy.scalingSteps up) v = 2).

(** The path of the listener created by [addListener]. *)
Definition Listener : Ref := child_path "ApplicationLoadBalancer" "Listener".

(** The routing records (target group, listener) against the traffic
    boundary records (the security group of the listener's load balancer,
    and the security group of the instances the target group routes to). *)
Definition ports_match (t : list (Ref * Resource)) : Prop :=
  exists tg lsn alb albSG asgRef asg lt backendSG,
    select asApplicationTargetGroup t = [("BackendTargetGroup", tg)] /\
    select asApplicationListener t = [(Listener, lsn)] /\
    ApplicationListener.defaultTargetGroups lsn = ["BackendTargetGroup"] /\
    get asApplicationLoadBalancer t (ApplicationListener.loadBalancer lsn)
      = Some alb /\
    get asSecurityGroup t (ApplicationLoadBalancer.securityGroup alb)
      = Some albSG /\
    ApplicationTargetGroup.targets tg = [asgRef] /\
    get asAutoScalingGroup t asgRef = Some asg /\
    get asLaunchTemplate t (AutoScalingGroup.launchTemplate asg) = Some lt /\
    get asSecurityGroup t (LaunchTemplate.securityGroup lt) = Some backendSG /\
    let fromAlb :=
      SecurityGroup.admittedFrom
        (Peer_securityGroup (ApplicationLoadBalancer.securityGroup alb))
        backendSG in
    let hc := ApplicationTargetGroup.healthCheck tg in
    ApplicationTargetGroup.port tg = 8080 /\
    fromAlb = [Port_tcp (ApplicationTargetGroup.port tg)] /\
    ApplicationListener.port lsn = 80 /\
    In (Port_tcp (ApplicationListener.port lsn))
       (SecurityGroup.admittedFrom Peer_anyIpv4 albSG) /\
    ApplicationTargetGroup.enabled hc = true /\
    ApplicationTargetGroup.path hc = "/health" /\
    ApplicationTargetGroup.healthyHttpCodes hc = "200" /\
    ApplicationTargetGroup.hc_protocol hc = P_HTTP /\
    ApplicationTargetGroup.hc_port hc = None /\
    In (Port_tcp (ApplicationTargetGroup.healthCheckPort tg)) fromAlb.

(** Every reference resolves in the tree, and the three the data model
    names do so to the records expected. *)
Definition references_resolve (t : list (Ref * Resource)) : Prop :=
  (* every reference of every record *)
  (forall path res r k,
     In (path, res) t -> In (r, k) (refs res) ->
     r <> path /\
     exists target, lookup_child t r = Some target /\
                    forall kd, k = Some kd -> kind_of target = kd) /\
  (* the scaling group and the network's subnets *)
  (exists asg vpc,
     get asAutoScalingGroup t "BackendAutoScalingGroup" = Some asg /\
     AutoScalingGroup.vpc asg <> "BackendAutoScalingGroup" /\
     get asVpc t (AutoScalingGroup.vpc asg) = Some vpc /\
     sel_subnetType (AutoScalingGroup.vpcSubnets asg) = PRIVATE_WITH_EGRESS /\
     List.map Vpc.name (Vpc.selectSubnets vpc (AutoScalingGroup.vpcSubnets asg))
       = ["Private-Backend"; "Private-Clients"]) /\
  (* the target group and its traffic target *)
  (exists tg target,
     get asApplicationTargetGroup t "BackendTargetGroup" = Some tg /\
     ApplicationTargetGroup.targets tg = [target] /\
     target <> "BackendTargetGroup" /\
     is_Some (get asAutoScalingGroup t target)) /\
  (* the database, its subnet group and the security group it admits *)
  (exists db peer,
     get asDatabaseInstance t "Database" = Some db /\
     DatabaseInstance.subnetGroup db <> "Database" /\
     is_Some (get asSubnetGroup t (DatabaseInstance.subnetGroup db)) /\
     DatabaseInstance.connections db
       = [{| DatabaseInstance.conn_peer := peer;
             DatabaseInstance.conn_port := Port_tcp 5432 |}] /\
     peer <> "Database" /\
     is_Some (get asSecurityGroup t peer)).

(** The alarm and the dashboard of a tree, and who refers to them. *)
Definition observability_alone (t : list (Ref * Resource)) : Prop :=
  exists alarm dashboard,
    select asAlarm t = [("HighCPUAlarm", alarm)] /\
    select asDashboard t = [("ScalableBackendDashboard", dashboard)] /\
    Alarm.threshold alarm = 80 /\
    Alarm.evaluationPeriods alarm = 2 /\
    Alarm.treatMissingData alarm = Alarm.NOT_BREACHING /\
    Alarm.alarmActions alarm = [] /\
    (forall path res x,
       In (path, res) t -> In x (refs res) -> fst x <> "HighCPUAlarm") /\
    Dashboard.dashboardName dashboard = "ScalableBackendMonitoring" /\
    Dashboard.widgets dashboard = [] /\
    (forall path res x,
       In (path, res) t -> In x (refs res) ->
       fst x <> "ScalableBackendDashboard").

(** * Further notions: rendering, boundaries, placement *)

(** The text of a template literal, once [this.account], [this.region] and
    the attributes of other constructs are known strings. *)
Definition render_part (account region : string)
    (attr : Ref -> string -> string) (p : StrPart) : string :=
  match p with
  | Lit s => s
  | ThisAccount => account
  | ThisRegion => region
  | Attr o a => attr o a
  end.

Definition render (account region : string)
    (attr : Ref -> string -> string) (v : StrVal) : string :=
  fold_right String.append EmptyString
    (List.map (render_part account region attr) v).

(** The character [-]. *)
Definition hyphen : Ascii.ascii := Eval cbv in Ascii.ascii_of_nat 45.

(** No hyphen occurs in a string (an account number is all digits). *)
Fixpoint no_hyphen (s : string) : bool :=
  match s with
  | EmptyString => true
  | String c rest => negb (Ascii.eqb c hyphen) && no_hyphen rest
  end.



(** What the traffic boundaries of a tree leave open: to any IPv4 source,
    and to the database. *)
Definition boundaries_closed (t : list (Ref * Resource)) : Prop :=
  (forall path g r,
     In (path, g) (select asSecurityGroup t) ->
     In r (SecurityGroup.ingressRules g) ->
     SecurityGroup.peer r = Peer_anyIpv4 ->
     path = "ALBSecurityGroup" /\
     (SecurityGroup.port r = Port_tcp 80 \/
      SecurityGroup.port r = Port_tcp 443)) /\
  (forall path l,
     In (path, l) (select asApplicationListener t) ->
     ApplicationListener.port l = 80) /\
  (forall path d c,
     In (path, d) (select asDatabaseInstance t) ->
     In c (DatabaseInstance.connections d) ->
     DatabaseInstance.conn_peer c = "BackendSecurityGroup" /\
     DatabaseInstance.conn_port c = Port_tcp 5432).

(** The grants a role of the tree holds. *)
Definition grants_of (t : list (Ref * Resource)) (role : Ref)
  : list Role.Grant :=
  match lookup_child t role with
  | Some (RRole p) => Role.grants p
  | _ => []
  end.

Definition asFargateTaskDefinition (r : Resource) :=
  match r with RFargateTaskDefinition p => Some p | _ => None end.

(** What the backend instances hold towards the database and the bucket,
    and what the container tasks hold. *)
Definition access_to_data (t : list (Ref * Resource)) : Prop :=
  exists lt db secret task bucket b,
    select asLaunchTemplate t = [("BackendLaunchTemplate", lt)] /\
    select asDatabaseInstance t = [("Database", db)] /\
    select asBucket t = [(bucket, b)] /\
    select asFargateTaskDefinition t = [("DownloadAgentTaskDefinition", task)] /\
    DatabaseInstance.credentials db = DatabaseInstance.fromSecret secret /\
    (* the instances: admitted by the database, its credentials, the bucket *)
    In {| DatabaseInstance.conn_peer := LaunchTemplate.securityGroup lt;
          DatabaseInstance.conn_port := Port_tcp 5432 |}
       (DatabaseInstance.connections db) /\
    In (Role.SecretRead secret) (grants_of t (LaunchTemplate.role lt)) /\
    In (Role.BucketReadWrite bucket) (grants_of t (LaunchTemplate.role lt)) /\
    (* the tasks: another role, holding the bucket and nothing else *)
    FargateTaskDefinition.taskRole task <> LaunchTemplate.role lt /\
    grants_of t (FargateTaskDefinition.taskRole task)
      = [Role.BucketReadWrite bucket].

(** The name the bucket of a tree gets for an account and a region. *)
Definition bucket_name_of (b : Bucket.props) (account region : string)
    (attr : Ref -> string -> string) : string :=
  render account region attr (Bucket.bucketName b).

Definition bucket_naming (t : list (Ref * Resource)) : Prop :=
  exists b,
    select asBucket t = [("DataBucket", b)] /\
    (forall attr a r,
       bucket_name_of b a r attr
       = String.append "scalable-backend-data-"
           (String.append a (String.append "-" r))) /\
    (forall attr attr' a r a' r',
       no_hyphen a = true -> no_hyphen a' = true ->
       bucket_name_of b a r attr = bucket_name_of b a' r' attr' ->
       a = a' /\ r = r') /\
    (exists attr a r a' r',
       (a, r) <> (a', r') /\
       bucket_name_of b a r attr = bucket_name_of b a' r' attr).

Definition asRestApi (r : Resource) :=
  match r with RRestApi p => Some p | _ => None end.
Definition asCluster (r : Resource) :=
  match r with RCluster p => Some p | _ => None end.
Definition asContainerDefinition (r : Resource) :=
  match r with RContainerDefinition p => Some p | _ => None end.
Definition asFargateService (r : Resource) :=
  match r with RFargateService p => Some p | _ => None end.

(** The REST API of a tree, where its proxy sends requests, and the listener
    that receives them there. *)
Definition api_forwards_to_balancer (t : list (Ref * Resource)) : Prop :=
  exists api o albRef alb lsn,
    select asRestApi t = [("BackendAPI", api)] /\
    RestApi.rootProxies api = [o] /\
    select asApplicationLoadBalancer t = [(albRef, alb)] /\
    select asApplicationListener t = [(child_path albRef "Listener", lsn)] /\
    RestApi.anyMethod o = true /\
    HttpIntegration.httpMethod (RestApi.defaultIntegration o) = "ANY" /\
    HttpIntegration.proxy (RestApi.defaultIntegration o) = true /\
    (forall account region attr,
       render account region attr
         (HttpIntegration.url (RestApi.defaultIntegration o))
       = String.append "http://" (attr albRef "loadBalancerDnsName")) /\
    ApplicationLoadBalancer.internetFacing alb = true /\
    ApplicationListener.loadBalancer lsn = albRef /\
    ApplicationListener.protocol lsn = AP_HTTP /\
    ApplicationListener.port lsn = 80 /\
    RestApi.allowOrigins (RestApi.defaultCorsPreflightOptions api)
      = RestApi.ALL_ORIGINS /\
    RestApi.allowMethods (RestApi.defaultCorsPreflightOptions api)
      = RestApi.ALL_METHODS.

(** The container service of a tree with its cluster, its task definition
    and the container of that task definition. *)
Definition container_service (t : list (Ref * Resource)) : Prop :=
  exists svc cluster task c,
    select asFargateService t = [("DownloadAgentService", svc)] /\
    select asCluster t = [(FargateService.cluster svc, cluster)] /\
    select asFargateTaskDefinition t
      = [(FargateService.taskDefinition svc, task)] /\
    select asContainerDefinition t
      = [(child_path (FargateService.taskDefinition svc)
                     "DownloadAgentContainer", c)] /\
    ContainerDefinition.taskDefinition c = FargateService.taskDefinition svc /\
    is_Some (get asVpc t (Cluster.vpc cluster)) /\
    Cluster.clusterName cluster = "download-agents-cluster" /\
    FargateService.desiredCount svc = 3 /\
    FargateTaskDefinition.memoryLimitMiB task = 512 /\
    FargateTaskDefinition.cpu task = 256 /\
    ContainerDefinition.image c
      = ContainerDefinition.fromRegistry "alpine:latest" /\
    ContainerDefinition.logging c
      = ContainerDefinition.awsLogs "download-agent"
          ContainerDefinition.ONE_WEEK /\
    List.firstn 2 (ContainerDefinition.command c) = ["sh"; "-c"] /\
    length (ContainerDefinition.command c) = 3%nat.

(** A text occurs inside another. *)
Fixpoint contains (sub s : string) : bool :=
  String.prefix sub s
  || match s with
     | EmptyString => false
     | String _ rest => contains sub rest
     end.

(** A shell command that publishes a port of a container under the same
    number on the host ([-p port:port]). *)
Definition publishes (port : Z) (cmd : string) : bool :=
  contains (String.append "-p "
             (String.append (pretty port)
               (String.append ":" (pretty port)))) cmd.

(** The start-up commands of the instances a target group routes to, against
    the port it routes to. *)
Definition instances_serve_target_port (t : list (Ref * Resource)) : Prop :=
  exists tg asgRef asg lt earlier cmd,
    select asApplicationTargetGroup t = [("BackendTargetGroup", tg)] /\
    ApplicationTargetGroup.targets tg = [asgRef] /\
    get asAutoScalingGroup t asgRef = Some asg /\
    get asLaunchTemplate t (AutoScalingGroup.launchTemplate asg) = Some lt /\
    UserData.commands (LaunchTemplate.userData lt) = (earlier ++ [cmd])%list /\
    length earlier = 7%nat /\
    publishes (ApplicationTargetGroup.port tg) cmd = true /\
    Forall (fun c => contains "-p " c = false) earlier.

(** * Properties *)

(** ** Running the constructor and the entry point *)

(** The body neither reads nor writes anything of the stack but its
    children: from the empty stack it leaves the same tree and ends the same
    way whatever the identifier and the properties. *)
Lemma constructor_body_run (id : string) (props : option StackProps) :
  constructor_body (mkStack id props []) =
  (constructor_end, mkStack id props descriptor_tree).
Proof. reflexivity. Qed.

(** It ends on the library's refusal of the scale-down policy, whose step
    list has one step. *)
Lemma constructor_end_refused :
  constructor_end = inl (TooFewIntervals ScaleDownPolicy 1).
Proof. reflexivity. Qed.

Lemma ScalableBackendStack_fresh (scope : App) (id : string)
    (props : option StackProps) :
  App_has scope id = false ->
  ScalableBackendStack scope id props =
  (inl (TooFewIntervals ScaleDownPolicy 1),
   {| stacks := stacks scope ++ [mkStack id props descriptor_tree] |}).
Proof.
  intros Hfresh. unfold ScalableBackendStack, super. rewrite Hfresh.
  change {| stackId := id; stackProps := props; children := [] |}
    with (mkStack id props []).
  rewrite constructor_body_run, constructor_end_refused. reflexivity.
Qed.

Lemma ScalableBackendStack_taken (scope : App) (id : string)
    (props : option StackProps) :
  App_has scope id = true ->
  ScalableBackendStack scope id props = (inl (DuplicateConstruct id), scope).
Proof.
  intros Htaken. unfold ScalableBackendStack, super. now rewrite Htaken.
Qed.

(** The script is the two reads, the construction with what was read, and
    the synthesis if the construction returns. *)
Lemma main_unfold (penv : gmap string string) :
  main penv =
  match ScalableBackendStack new_App "ScalableBackendStack"
          (Some (entry_props (penv !! "CDK_DEFAULT_ACCOUNT")
                             (penv !! "CDK_DEFAULT_REGION"))) with
  | (inl e, _) =>
      ([GetEnv "CDK_DEFAULT_ACCOUNT"; GetEnv "CDK_DEFAULT_REGION"], inl e)
  | (inr _, app) =>
      ([GetEnv "CDK_DEFAULT_ACCOUNT"; GetEnv "CDK_DEFAULT_REGION"; Synth app],
       inr tt)
  end.
Proof.
  unfold main, io_bind, getenv, new_in, synth, entry_props.
  rewrite ScalableBackendStack_fresh by reflexivity. reflexivity.
Qed.

Lemma main_run (penv : gmap string string) :
  main penv =
  ([GetEnv "CDK_DEFAULT_ACCOUNT"; GetEnv "CDK_DEFAULT_REGION"],
   inl (TooFewIntervals ScaleDownPolicy 1)).
Proof.
  rewrite main_unfold, ScalableBackendStack_fresh by reflexivity. reflexivity.
Qed.

(** ** Lookups and the reference checker *)

Lemma lookup_child_In (t : list (Ref * Resource)) (r : Ref) (res : Resource) :
  lookup_child t r = Some res -> In (r, res) t.
Proof.
  unfold lookup_child.
  destruct (List.find (fun n => String.eqb (fst n) r) t)
    as [[r' res']|] eqn:Hfind; simpl; [|discriminate].
  intros [= <-]. apply List.find_some in Hfind as [Hin Heq].
  apply String.eqb_eq in Heq. simpl in Heq. now subst r'.
Qed.

Lemma ref_ok_sound (t : list (Ref * Resource)) (self r : Ref)
    (k : option Kind) :
  ref_ok t self (r, k) = true ->
  r <> self /\
  exists target, lookup_child t r = Some target /\
                 forall kd, k = Some kd -> kind_of target = kd.
Proof.
  unfold ref_ok. simpl. intros H.
  apply andb_prop in H as [Hne Hlook]. split.
  - apply negb_true_iff, String.eqb_neq in Hne. exact Hne.
  - destruct (lookup_child t r) as [target|]; [|discriminate].
    exists target. split; [reflexivity|].
    intros kd ->. now apply bool_decide_eq_true in Hlook.
Qed.

Lemma refs_resolve_sound (t : list (Ref * Resource)) :
  refs_resolve t = true ->
  forall path res r k,
    In (path, res) t -> In (r, k) (refs res) ->
    r <> path /\
    exists target, lookup_child t r = Some target /\
                   forall kd, k = Some kd -> kind_of target = kd.
Proof.
  unfold refs_resolve. intros Hall path res r k Hnode Href.
  rewrite List.forallb_forall in Hall. specialize (Hall _ Hnode).
  simpl in Hall. rewrite List.forallb_forall in Hall.
  now apply ref_ok_sound, Hall.
Qed.

Lemma referrers_nil (t : list (Ref * Resource)) (r : Ref) :
  referrers t r = [] ->
  forall path res x, In (path, res) t -> In x (refs res) -> fst x <> r.
Proof.
  unfold referrers. intros Hnil path res x Hnode Href Heq.
  apply List.map_eq_nil in Hnil.
  assert (Hin : In (path, res)
            (List.filter (fun n => existsb (fun y => String.eqb (fst y) r)
                                           (refs (snd n))) t)).
  { apply List.filter_In. split; [exact Hnode|]. simpl.
    apply List.existsb_exists. exists x. split; [exact Href|].
    now apply String.eqb_eq. }
  rewrite Hnil in Hin. exact Hin.
Qed.

(** ** Step lists *)

Section Steps.
Import StepScalingPolicy.

Lemma inInterval_spec (i : ScalingInterval) (v : Q) :
  inInterval i v = true <->
  (forall l, lower i = Some l -> (inject_Z l <= v)%Q) /\
  (forall u, upper i = Some u -> (v < inject_Z u)%Q).
Proof.
  unfold inInterval. rewrite andb_true_iff. split.
  - intros [Hl Hu]. split.
    + intros l El. rewrite El in Hl. now apply Qle_bool_iff.
    + intros u Eu. rewrite Eu in Hu. apply negb_true_iff in Hu.
      apply Qnot_le_lt. intros Hle. apply Qle_bool_iff in Hle. congruence.
  - intros [Hl Hu]. split.
    + destruct (lower i) as [l|]; [|reflexivity].
      apply Qle_bool_iff. now apply Hl.
    + destruct (upper i) as [u|]; [|reflexivity].
      apply negb_true_iff. destruct (Qle_bool (inject_Z u) v) eqn:E; [|reflexivity].
      apply Qle_bool_iff in E. specialize (Hu u eq_refl).
      exfalso. now apply (Qlt_not_le _ _ Hu).
Qed.

Lemma adjustmentAt_in (i : ScalingInterval) rest (v : Q) :
  inInterval i v = true -> adjustmentAt (i :: rest) v = change i.
Proof. intros H. simpl. now rewrite H. Qed.

Lemma adjustmentAt_out (i : ScalingInterval) rest (v : Q) :
  inInterval i v = false -> adjustmentAt (i :: rest) v = adjustmentAt rest v.
Proof. intros H. simpl. now rewrite H. Qed.

Lemma inInterval_below (i : ScalingInterval) (u : Z) (v : Q) :
  upper i = Some u -> (inject_Z u <= v)%Q -> inInterval i v = false.
Proof.
  intros Eu Hle. apply not_true_is_false. intros Hin.
  apply inInterval_spec in Hin as [_ Hu]. specialize (Hu u Eu).
  now apply (Qlt_not_le _ _ Hu).
Qed.

Lemma inInterval_above (i : ScalingInterval) (l : Z) (v : Q) :
  lower i = Some l -> (v < inject_Z l)%Q -> inInterval i v = false.
Proof.
  intros El Hlt. apply not_true_is_false. intros Hin.
  apply inInterval_spec in Hin as [Hl _]. specialize (Hl l El).
  now apply (Qlt_not_le _ _ Hlt).
Qed.
End Steps.

(** ** The claims *)

(** The tree a construction leaves under its scope is the stack [super] put
    there, with the records declared until the constructor returned or
    raised. *)

(** Runs the constructor in a scope where the identifier is free, leaving
    the property of the tree it leaves under the scope as the goal. *)
Ltac construct Hfresh :=
  rewrite (ScalableBackendStack_fresh _ _ _ Hfresh);
  eexists _, _; split; [reflexivity|];
  unfold mkStack; cbn [children].

(** *** Storage *)

(** C6: in the tree every construction leaves under its scope,
    the storage record (the only
    bucket of the tree) enables object versioning, specifies store-managed
    encryption at rest, and blocks all public access. *)
Theorem storage_record_settings (scope : App) (id : string)
    (props : option StackProps) :
  App_has scope id = false ->
  exists outcome this,
    ScalableBackendStack scope id props
      = (outcome, {| stacks := stacks scope ++ [this] |}) /\
    storage_settings (children this).
Proof.
  intros Hfresh. construct Hfresh.
  unfold storage_settings. eexists. split; [vm_compute; reflexivity|].
  repeat split.
Qed.

Lemma storage_record_settings_witness :
  App_has new_App "ScalableBackendStack" = false /\
  exists outcome this,
    ScalableBackendStack new_App "ScalableBackendStack" None
      = (outcome, {| stacks := stacks new_App ++ [this] |}) /\
    storage_settings (children this).
Proof.
  split; [reflexivity|].
  apply (storage_record_settings new_App "ScalableBackendStack" None).
  reflexivity.
Defined.

(** *** Teardown *)

(** C9: in the tree every construction leaves under its scope,
    both persistent-data records,
    the bucket and the database, carry the destroy removal policy, and the
    database has deletion protection and multi-AZ deployment disabled. *)
Theorem teardown_is_destructive (scope : App) (id : string)
    (props : option StackProps) :
  App_has scope id = false ->
  exists outcome this,
    ScalableBackendStack scope id props
      = (outcome, {| stacks := stacks scope ++ [this] |}) /\
    destroyed_on_teardown (children this).
Proof.
  intros Hfresh. construct Hfresh.
  unfold destroyed_on_teardown. eexists _, _.
  split; [vm_compute; reflexivity|].
  split; [vm_compute; reflexivity|].
  repeat split.
Qed.

Lemma teardown_is_destructive_witness :
  App_has new_App "ScalableBackendStack" = false /\
  exists outcome this,
    ScalableBackendStack new_App "ScalableBackendStack" None
      = (outcome, {| stacks := stacks new_App ++ [this] |}) /\
    destroyed_on_teardown (children this).
Proof.
  split; [reflexivity|].
  apply (teardown_is_destructive new_App "ScalableBackendStack" None).
  reflexivity.
Defined.

(** *** Ports and health check *)

(** C1: in the tree every construction leaves under its scope,
    the target group's port, 8080,
    is all the backend security group admits from the load
    balancer's security group; the listener's port, 80, is among the ports
    the load balancer's security group admits from any IPv4 source; and the
    target group's health check (path /health, expected status 200, over
    HTTP) names no port of its own, so that it goes to the target group's
    port, which the backend security group admits from the load balancer. *)
Theorem ports_and_health_check_match (scope : App) (id : string)
    (props : option StackProps) :
  App_has scope id = false ->
  exists outcome this,
    ScalableBackendStack scope id props
      = (outcome, {| stacks := stacks scope ++ [this] |}) /\
    ports_match (children this).
Proof.
  intros Hfresh. construct Hfresh.
  unfold ports_match. eexists _, _, _, _, _, _, _, _.
  do 9 (split; [vm_compute; reflexivity|]).
  cbv zeta. repeat split.
  - (* 80 among [80; 443] *) vm_compute. now left.
  - (* the health check's port among [8080] *) vm_compute. now left.
Qed.

Lemma ports_and_health_check_match_witness :
  App_has new_App "ScalableBackendStack" = false /\
  exists outcome this,
    ScalableBackendStack new_App "ScalableBackendStack" None
      = (outcome, {| stacks := stacks new_App ++ [this] |}) /\
    ports_match (children this).
Proof.
  split; [reflexivity|].
  apply (ports_and_health_check_match new_App "ScalableBackendStack" None).
  reflexivity.
Defined.

(** *** References *)

(** C5: in the tree every construction leaves under its scope,
    every reference a record holds
    names another record of the same tree, of the class the reference
    requires.  In particular the scaling group names the network record and
    selects its private-with-egress subnets (there are two such subnet
    groups), the target group names the scaling group as its one traffic
    target, and the database names a subnet group of the tree and admits
    connections from a security group of the tree. *)
Theorem cross_references_resolve (scope : App) (id : string)
    (props : option StackProps) :
  App_has scope id = false ->
  exists outcome this,
    ScalableBackendStack scope id props
      = (outcome, {| stacks := stacks scope ++ [this] |}) /\
    references_resolve (children this).
Proof.
  intros Hfresh. construct Hfresh.
  unfold references_resolve. split; [|split; [|split]].
  - apply refs_resolve_sound. vm_compute. reflexivity.
  - eexists _, _. split; [vm_compute; reflexivity|].
    cbn [AutoScalingGroup.vpc AutoScalingGroup.vpcSubnets].
    split; [discriminate|]. split; [vm_compute; reflexivity|].
    split; reflexivity.
  - eexists _, _. split; [vm_compute; reflexivity|].
    cbn [ApplicationTargetGroup.targets].
    split; [reflexivity|]. split; [discriminate|].
    vm_compute. eexists. reflexivity.
  - eexists _, _. split; [vm_compute; reflexivity|].
    cbn [DatabaseInstance.subnetGroup DatabaseInstance.connections].
    split; [discriminate|].
    split; [vm_compute; eexists; reflexivity|].
    split; [reflexivity|]. split; [discriminate|].
    vm_compute. eexists. reflexivity.
Qed.

Lemma cross_references_resolve_witness :
  App_has new_App "ScalableBackendStack" = false /\
  exists outcome this,
    ScalableBackendStack new_App "ScalableBackendStack" None
      = (outcome, {| stacks := stacks new_App ++ [this] |}) /\
    references_resolve (children this).
Proof.
  split; [reflexivity|].
  apply (cross_references_resolve new_App "ScalableBackendStack" None).
  reflexivity.
Defined.

(** *** Observability *)

(** C10: in the tree every construction leaves under its scope,
    the high-CPU alarm (the only
    alarm: threshold 80, two evaluation periods, missing data treated as not
    breaching) has no alarm action and no record of the tree, scaling policy
    or other, refers to it; the dashboard (the only one) has a name and no
    widget, and no record refers to it either. *)
Theorem observability_stands_alone (scope : App) (id : string)
    (props : option StackProps) :
  App_has scope id = false ->
  exists outcome this,
    ScalableBackendStack scope id props
      = (outcome, {| stacks := stacks scope ++ [this] |}) /\
    observability_alone (children this).
Proof.
  intros Hfresh. construct Hfresh.
  unfold observability_alone. eexists _, _.
  do 2 (split; [vm_compute; reflexivity|]).
  cbn [Alarm.threshold Alarm.evaluationPeriods Alarm.treatMissingData
       Alarm.alarmActions Dashboard.dashboardName Dashboard.widgets].
  do 4 (split; [reflexivity|]).
  split; [apply referrers_nil; vm_compute; reflexivity|].
  do 2 (split; [reflexivity|]).
  apply referrers_nil. vm_compute. reflexivity.
Qed.

Lemma observability_stands_alone_witness :
  App_has new_App "ScalableBackendStack" = false /\
  exists outcome this,
    ScalableBackendStack new_App "ScalableBackendStack" None
      = (outcome, {| stacks := stacks new_App ++ [this] |}) /\
    observability_alone (children this).
Proof.
  split; [reflexivity|].
  apply (observability_stands_alone new_App "ScalableBackendStack" None).
  reflexivity.
Defined.

(** *** The compute scaling record *)

(** C2: the constructor does not get to declare both policies.  Whatever
    the scope and the properties, with a free identifier, it ends on the
    library's refusal of the scale-down policy, whose step list has one
    step where the library requires two.  The tree it leaves holds the
    scaling group with its launch template, minimum 2 <= desired 3 <=
    maximum 10 and a five-minute grace period, and one step policy on the
    group's CPU utilization metric, the scale-up policy; it holds no
    scale-down policy. *)
Theorem scaling_record_lacks_scale_down (scope : App) (id : string)
    (props : option StackProps) :
  App_has scope id = false ->
  exists this,
    ScalableBackendStack scope id props
      = (inl (TooFewIntervals ScaleDownPolicy 1),
         {| stacks := stacks scope ++ [this] |}) /\
    scaling_record_as_built (children this) /\
    get asStepScalingPolicy (children this) ScaleDownPolicy = None.
Proof.
  intros Hfresh. rewrite (ScalableBackendStack_fresh _ _ _ Hfresh).
  eexists. split; [reflexivity|]. unfold mkStack. cbn [children].
  split; [|vm_compute; reflexivity].
  unfold scaling_record_as_built. eexists _, _, _.
  do 2 (split; [vm_compute; reflexivity|]).
  cbn [AutoScalingGroup.minCapacity AutoScalingGroup.desiredCapacity
       AutoScalingGroup.maxCapacity AutoScalingGroup.healthCheck].
  do 3 (split; [reflexivity|]).
  split; [lia|].
  split; [eexists; split; reflexivity|].
  split; [vm_compute; reflexivity|].
  do 3 (split; [reflexivity|]).
  apply List.Forall_cons; [cbn; right; discriminate|].
  apply List.Forall_cons; [cbn; left; discriminate|].
  apply List.Forall_nil.
Qed.

Lemma scaling_record_lacks_scale_down_witness :
  App_has new_App "ScalableBackendStack" = false /\
  exists this,
    ScalableBackendStack new_App "ScalableBackendStack" None
      = (inl (TooFewIntervals ScaleDownPolicy 1),
         {| stacks := stacks new_App ++ [this] |}) /\
    scaling_record_as_built (children this) /\
    get asStepScalingPolicy (children this) ScaleDownPolicy = None.
Proof.
  split; [reflexivity|].
  apply (scaling_record_lacks_scale_down new_App "ScalableBackendStack" None).
  reflexivity.
Defined.

(** *** Scaling steps *)

(** C8: the scale-down steps are never constructed.  Whatever the scope and
    the properties, with a free identifier, the constructor ends on the
    library's refusal of the one-step scale-down policy.  The tree it leaves
    holds the scale-up policy, whose step list prescribes one more instance
    below 50, no change from 50 up to (not including) 80 and two more from
    80; it holds no scale-down policy, and no step policy of the tree
    prescribes removing an instance at any value of the metric. *)
Theorem scale_down_steps_never_constructed (scope : App) (id : string)
    (props : option StackProps) :
  App_has scope id = false ->
  exists this,
    ScalableBackendStack scope id props
      = (inl (TooFewIntervals ScaleDownPolicy 1),
         {| stacks := stacks scope ++ [this] |}) /\
    scale_up_thresholds (children this) /\
    get asStepScalingPolicy (children this) ScaleDownPolicy = None /\
    forall path p (v : Q),
      In (path, p) (select asStepScalingPolicy (children this)) ->
      0 <= StepScalingPolicy.adjustmentAt (StepScalingPolicy.scalingSteps p) v.
Proof.
  intros Hfresh. rewrite (ScalableBackendStack_fresh _ _ _ Hfresh).
  eexists. split; [reflexivity|]. unfold mkStack. cbn [children].
  assert (Hup : scale_up_thresholds descriptor_tree).
  { unfold scale_up_thresholds. eexists.
    split; [vm_compute; reflexivity|].
    cbn [StepScalingPolicy.adjustmentType StepScalingPolicy.scalingSteps].
    split; [reflexivity|].
    split; [|split]; intros v.
    - intros Hlt. apply adjustmentAt_in, inInterval_spec.
      split; cbn; intros ? [= <-]. exact Hlt.
    - intros Hge Hlt.
      rewrite adjustmentAt_out
        by (eapply inInterval_below; [reflexivity|exact Hge]).
      rewrite adjustmentAt_out
        by (eapply inInterval_above; [reflexivity|exact Hlt]).
      reflexivity.
    - intros Hge.
      rewrite adjustmentAt_out
        by (eapply inInterval_below; [reflexivity|]; unfold inject_Z; lra).
      apply adjustmentAt_in, inInterval_spec.
      split; cbn; intros ? [= <-]. exact Hge. }
  split; [exact Hup|]. split; [vm_compute; reflexivity|].
  intros path p v Hin.
  destruct Hup as (up & Hget & _ & Hlow & Hmid & Hhigh).
  assert (Hsel : select asStepScalingPolicy descriptor_tree
                 = [(ScaleUpPolicy, up)]).
  { revert Hget. vm_compute. intros [= <-]. reflexivity. }
  rewrite Hsel in Hin. destruct Hin as [[= <- <-]|[]].
  clear Hget Hsel.
  destruct (Qlt_le_dec v 50) as [H50|H50]; [rewrite (Hlow v H50); discriminate|].
  destruct (Qlt_le_dec v 80) as [H80|H80]; [rewrite (Hmid v H50 H80); discriminate|].
  rewrite (Hhigh v H80). discriminate.
Qed.

Lemma scale_down_steps_never_constructed_witness :
  App_has new_App "ScalableBackendStack" = false /\
  exists this,
    ScalableBackendStack new_App "ScalableBackendStack" None
      = (inl (TooFewIntervals ScaleDownPolicy 1),
         {| stacks := stacks new_App ++ [this] |}) /\
    get asStepScalingPolicy (children this) ScaleDownPolicy = None.
Proof.
  split; [reflexivity|].
  destruct (scale_down_steps_never_constructed
              new_App "ScalableBackendStack" None eq_refl)
    as (this & Hrun & _ & Hnone & _).
  exists this. split; assumption.
Defined.

(** *** Outputs *)

(** C3: no output reaches the synthesizer.  Whatever the process
    environment holds, the entry point ends on the library's refusal of the
    scale-down policy and hands nothing to the synthesizer; the stack its
    construction leaves under the application declares no output, the four
    output declarations coming after the refused call. *)
Theorem no_output_reaches_synthesis (penv : gmap string string) :
  synthesized (fst (main penv)) = [] /\
  snd (main penv) = inl (TooFewIntervals ScaleDownPolicy 1) /\
  exists this,
    ScalableBackendStack new_App "ScalableBackendStack"
      (Some (entry_props (penv !! "CDK_DEFAULT_ACCOUNT")
                         (penv !! "CDK_DEFAULT_REGION")))
    = (inl (TooFewIntervals ScaleDownPolicy 1), {| stacks := [this] |}) /\
    Outputs this = [].
Proof.
  rewrite main_run. split; [reflexivity|]. split; [reflexivity|].
  rewrite ScalableBackendStack_fresh by reflexivity.
  eexists. split; [reflexivity|].
  unfold Outputs, mkStack. cbn [children]. vm_compute. reflexivity.
Qed.

(** *** The entry point *)

(** C4: the entry point stops before synthesis.  It reads exactly two
    variables of the process environment, the one for the account and then
    the one for the region, and constructs the stack with these two values
    as its environment properties; the construction ends on the library's
    refusal of the scale-down policy, the script ends there, and the
    synthesizer is never called.  Everything the script does is a function
    of the values of those two variables alone. *)
Theorem entry_point_stops_before_synthesis :
  (forall penv : gmap string string,
     main penv =
       ([GetEnv "CDK_DEFAULT_ACCOUNT"; GetEnv "CDK_DEFAULT_REGION"],
        inl (TooFewIntervals ScaleDownPolicy 1)) /\
     env_reads (fst (main penv))
       = ["CDK_DEFAULT_ACCOUNT"; "CDK_DEFAULT_REGION"] /\
     synthesized (fst (main penv)) = [] /\
     exists this p e,
       ScalableBackendStack new_App "ScalableBackendStack"
         (Some (entry_props (penv !! "CDK_DEFAULT_ACCOUNT")
                            (penv !! "CDK_DEFAULT_REGION")))
       = (inl (TooFewIntervals ScaleDownPolicy 1), {| stacks := [this] |}) /\
       snd (main penv)
       = inl (TooFewIntervals ScaleDownPolicy 1) /\
       stackId this = "ScalableBackendStack" /\
       stackProps this = Some p /\ env p = Some e /\
       account e = penv !! "CDK_DEFAULT_ACCOUNT" /\
       region e = penv !! "CDK_DEFAULT_REGION") /\
  (exists run : option string -> option string -> list Event * (Error + unit),
     forall penv : gmap string string,
       main penv = run (penv !! "CDK_DEFAULT_ACCOUNT")
                       (penv !! "CDK_DEFAULT_REGION")).
Proof.
  split.
  - intros penv. rewrite main_run. split; [reflexivity|].
    do 2 (split; [reflexivity|]).
    rewrite ScalableBackendStack_fresh by reflexivity.
    eexists _, _, _. split; [reflexivity|]. repeat split.
  - exists (fun _ _ =>
      ([GetEnv "CDK_DEFAULT_ACCOUNT"; GetEnv "CDK_DEFAULT_REGION"],
       inl (TooFewIntervals ScaleDownPolicy 1))).
    intros penv. apply main_run.
Qed.

(** *** Errors *)

(** C7: construction raises no error of its own.  Whatever the scope, the
    identifier and the properties (account and region given or absent), the
    constructor ends on an exception raised by the library, never on one
    thrown by the repository's code: the refusal of an identifier already
    taken in the scope, or else the refusal of the one-step scale-down
    policy.  The entry point catches nothing: whatever the process
    environment holds, it ends on the very exception of its construction. *)
Theorem errors_come_from_the_library :
  (forall scope id props,
     exists e scope',
       ScalableBackendStack scope id props = (inl e, scope') /\
       raised_by e = Library /\
       e = if App_has scope id then DuplicateConstruct id
           else TooFewIntervals ScaleDownPolicy 1) /\
  (forall penv : gmap string string,
     exists e,
       snd (main penv) = inl e /\
       raised_by e = Library /\
       fst (ScalableBackendStack new_App "ScalableBackendStack"
              (Some (entry_props (penv !! "CDK_DEFAULT_ACCOUNT")
                                 (penv !! "CDK_DEFAULT_REGION"))))
       = inl e).
Proof.
  split.
  - intros scope id props. destruct (App_has scope id) eqn:Hhas.
    + rewrite ScalableBackendStack_taken by exact Hhas.
      eexists _, _. repeat split.
    + rewrite ScalableBackendStack_fresh by exact Hhas.
      eexists _, _. repeat split.
  - intros penv. rewrite main_run.
    rewrite ScalableBackendStack_fresh by reflexivity.
    eexists. repeat split.
Qed.

(** ** Traffic boundaries *)

(** X6: in the tree every construction leaves under its scope,
    the only security group holding a rule for any IPv4 source is the load
    balancer's, and each such rule is for TCP port 80 or TCP port 443 (none
    for all traffic); every listener listens on port 80; and the database
    admits connections from the backend security group only, on port
    5432. *)
Theorem nothing_else_is_open (scope : App) (id : string)
    (props : option StackProps) :
  App_has scope id = false ->
  exists outcome this,
    ScalableBackendStack scope id props
      = (outcome, {| stacks := stacks scope ++ [this] |}) /\
    boundaries_closed (children this).
Proof.
  intros Hfresh. construct Hfresh.
  unfold boundaries_closed. split; [|split].
  - intros path g r Hin Hr Hpeer.
    let l := eval vm_compute in (select asSecurityGroup descriptor_tree) in
    change (select asSecurityGroup descriptor_tree) with l in Hin.
    destruct Hin as [[= <- <-]|[[= <- <-]|[]]];
      cbn [SecurityGroup.ingressRules] in Hr.
    + destruct Hr as [<-|[]]. discriminate Hpeer.
    + split; [reflexivity|].
      destruct Hr as [<-|[<-|[]]]; [now left|now right].
  - intros path l Hin.
    let l := eval vm_compute in (select asApplicationListener descriptor_tree) in
    change (select asApplicationListener descriptor_tree) with l in Hin.
    destruct Hin as [[= <- <-]|[]]. reflexivity.
  - intros path d c Hin Hc.
    let l := eval vm_compute in (select asDatabaseInstance descriptor_tree) in
    change (select asDatabaseInstance descriptor_tree) with l in Hin.
    destruct Hin as [[= <- <-]|[]].
    destruct Hc as [<-|[]]. now split.
Qed.

Lemma nothing_else_is_open_witness :
  App_has new_App "ScalableBackendStack" = false /\
  exists outcome this,
    ScalableBackendStack new_App "ScalableBackendStack" None
      = (outcome, {| stacks := stacks new_App ++ [this] |}) /\
    boundaries_closed (children this).
Proof.
  split; [reflexivity|].
  apply (nothing_else_is_open new_App "ScalableBackendStack" None).
  reflexivity.
Defined.

(** ** Access to the data *)

(** X7: in the tree every construction leaves under its scope,
    the backend instances are
    launched with the security group the database admits on port 5432 and
    with a role that may read the secret holding the database credentials
    and may read and write the bucket; the container tasks run under another
    role, which holds read-write access to the bucket and nothing else. *)
Theorem who_reaches_the_data (scope : App) (id : string)
    (props : option StackProps) :
  App_has scope id = false ->
  exists outcome this,
    ScalableBackendStack scope id props
      = (outcome, {| stacks := stacks scope ++ [this] |}) /\
    access_to_data (children this).
Proof.
  intros Hfresh. construct Hfresh.
  unfold access_to_data. eexists _, _, _, _, _, _.
  do 4 (split; [vm_compute; reflexivity|]).
  split; [reflexivity|].
  split; [vm_compute; now left|].
  split; [vm_compute; right; now left|].
  split; [vm_compute; now left|].
  split; [discriminate|].
  vm_compute. reflexivity.
Qed.

Lemma who_reaches_the_data_witness :
  App_has new_App "ScalableBackendStack" = false /\
  exists outcome this,
    ScalableBackendStack new_App "ScalableBackendStack" None
      = (outcome, {| stacks := stacks new_App ++ [this] |}) /\
    access_to_data (children this).
Proof.
  split; [reflexivity|].
  apply (who_reaches_the_data new_App "ScalableBackendStack" None).
  reflexivity.
Defined.

(** ** Placement in the network *)



(** ** The name of the bucket *)

Lemma append_cons (c : Ascii.ascii) (s t : string) :
  String.append (String c s) t = String c (String.append s t).
Proof. reflexivity. Qed.

Lemma append_empty_r (s : string) : String.append s EmptyString = s.
Proof.
  induction s as [|c s IH]; [reflexivity|].
  now rewrite append_cons, IH.
Qed.

Lemma append_cancel_l (p x y : string) :
  String.append p x = String.append p y -> x = y.
Proof.
  induction p as [|c p IH]; [trivial|].
  rewrite !append_cons. intros [= H]. exact (IH H).
Qed.

(** Two texts cut at their first hyphen agree only if both halves agree. *)
Lemma hyphen_split (a a' r r' : string) :
  no_hyphen a = true -> no_hyphen a' = true ->
  String.append a (String hyphen r) = String.append a' (String hyphen r') ->
  a = a' /\ r = r'.
Proof.
  revert a'. induction a as [|c a IH]; intros [|c' a'] Ha Ha';
    rewrite ?append_cons;
    change (String.append EmptyString (String hyphen r))
      with (String hyphen r);
    change (String.append EmptyString (String hyphen r'))
      with (String hyphen r').
  - intros [= ->]. now split.
  - intros [= <- _]. simpl in Ha'.
    rewrite ?Ascii.eqb_refl in Ha'. discriminate.
  - intros [= -> _]. simpl in Ha.
    rewrite ?Ascii.eqb_refl in Ha. discriminate.
  - intros [= <- H]. simpl in Ha, Ha'.
    apply andb_prop in Ha as [_ Ha]. apply andb_prop in Ha' as [_ Ha'].
    destruct (IH a' Ha Ha' H) as [-> ->]. now split.
Qed.

(** X10: in the tree every construction leaves under its scope,
    the bucket's name is the text
    scalable-backend-data- followed by the stack's account, a hyphen and
    the stack's region, whatever the attributes of other constructs are.
    Two account and region pairs whose accounts contain no hyphen get the
    same name only if they are the same pair; with a hyphen in the account,
    different pairs can get the same name. *)
Theorem bucket_name_per_account_and_region (scope : App) (id : string)
    (props : option StackProps) :
  App_has scope id = false ->
  exists outcome this,
    ScalableBackendStack scope id props
      = (outcome, {| stacks := stacks scope ++ [this] |}) /\
    bucket_naming (children this).
Proof.
  intros Hfresh. construct Hfresh.
  unfold bucket_naming. eexists. split; [vm_compute; reflexivity|].
  assert (Hname : forall attr a r,
    bucket_name_of
      {| Bucket.bucketName :=
           [Lit "scalable-backend-data-"; ThisAccount; Lit "-"; ThisRegion];
         Bucket.versioned := true;
         Bucket.encryption := Bucket.S3_MANAGED;
         Bucket.blockPublicAccess := Bucket.BLOCK_ALL;
         Bucket.removalPolicy := DESTROY |} a r attr
    = String.append "scalable-backend-data-"
        (String.append a (String.append "-" r))).
  { intros attr a r. unfold bucket_name_of, render.
    cbn [Bucket.bucketName List.map fold_right render_part].
    now rewrite append_empty_r. }
  split; [exact Hname|]. split.
  - intros attr attr' a r a' r' Ha Ha' Heq.
    rewrite !Hname in Heq. apply append_cancel_l in Heq.
    now apply hyphen_split.
  - exists (fun _ _ => EmptyString), "a-b", "c", "a", "b-c".
    split; [discriminate|reflexivity].
Qed.

Lemma bucket_name_per_account_and_region_witness :
  App_has new_App "ScalableBackendStack" = false /\
  exists outcome this,
    ScalableBackendStack new_App "ScalableBackendStack" None
      = (outcome, {| stacks := stacks new_App ++ [this] |}) /\
    bucket_naming (children this).
Proof.
  split; [reflexivity|].
  apply (bucket_name_per_account_and_region new_App "ScalableBackendStack" None).
  reflexivity.
Defined.

(** ** The API in front of the load balancer *)

(** X11: in the tree every construction leaves under its scope,
    the REST API has one proxy on
    its root, for any method, whose integration forwards any method to the
    URL made of http:// and the DNS name of the tree's one load balancer,
    with no port; that load balancer faces the internet and its one listener
    takes HTTP on port 80.  The API allows all origins and all methods in
    preflight. *)
Theorem api_proxies_to_the_balancer (scope : App) (id : string)
    (props : option StackProps) :
  App_has scope id = false ->
  exists outcome this,
    ScalableBackendStack scope id props
      = (outcome, {| stacks := stacks scope ++ [this] |}) /\
    api_forwards_to_balancer (children this).
Proof.
  intros Hfresh. construct Hfresh.
  unfold api_forwards_to_balancer. eexists _, _, _, _, _.
  split; [vm_compute; reflexivity|].
  split; [reflexivity|].
  do 2 (split; [vm_compute; reflexivity|]).
  do 3 (split; [reflexivity|]).
  split.
  - intros account region attr. unfold render.
    cbn [RestApi.defaultIntegration HttpIntegration.url List.map fold_right
         render_part].
    now rewrite append_empty_r.
  - repeat split.
Qed.

Lemma api_proxies_to_the_balancer_witness :
  App_has new_App "ScalableBackendStack" = false /\
  exists outcome this,
    ScalableBackendStack new_App "ScalableBackendStack" None
      = (outcome, {| stacks := stacks new_App ++ [this] |}) /\
    api_forwards_to_balancer (children this).
Proof.
  split; [reflexivity|].
  apply (api_proxies_to_the_balancer new_App "ScalableBackendStack" None).
  reflexivity.
Defined.

(** ** The container service *)

(** X12: in the tree every construction leaves under its scope,
    the one container service
    runs three copies of the one task definition (512 MiB, 256 CPU units) on
    the one cluster, which lies in a network of the tree; that task
    definition has exactly one container, created below it, from the image
    alpine:latest, started through [sh -c], logging under the prefix
    download-agent with one week of retention. *)
Theorem container_service_is_wired (scope : App) (id : string)
    (props : option StackProps) :
  App_has scope id = false ->
  exists outcome this,
    ScalableBackendStack scope id props
      = (outcome, {| stacks := stacks scope ++ [this] |}) /\
    container_service (children this).
Proof.
  intros Hfresh. construct Hfresh.
  unfold container_service. eexists _, _, _, _.
  split; [vm_compute; reflexivity|].
  cbn [FargateService.cluster FargateService.taskDefinition].
  do 3 (split; [vm_compute; reflexivity|]).
  split; [reflexivity|].
  split; [vm_compute; eexists; reflexivity|].
  repeat split.
Qed.

Lemma container_service_is_wired_witness :
  App_has new_App "ScalableBackendStack" = false /\
  exists outcome this,
    ScalableBackendStack new_App "ScalableBackendStack" None
      = (outcome, {| stacks := stacks new_App ++ [this] |}) /\
    container_service (children this).
Proof.
  split; [reflexivity|].
  apply (container_service_is_wired new_App "ScalableBackendStack" None).
  reflexivity.
Defined.

(** ** What the instances start *)

(** X13: in the tree every construction leaves under its scope,
    the instances the target group
    routes to are launched with eight start-up commands; the last one
    publishes a container port under the very number the target group
    routes to, and none of the seven before it publishes any port. *)
Theorem instances_listen_on_target_port (scope : App) (id : string)
    (props : option StackProps) :
  App_has scope id = false ->
  exists outcome this,
    ScalableBackendStack scope id props
      = (outcome, {| stacks := stacks scope ++ [this] |}) /\
    instances_serve_target_port (children this).
Proof.
  intros Hfresh. construct Hfresh.
  unfold instances_serve_target_port. eexists _, _, _, _.
  exists [ "yum update -y";
           "yum install -y docker";
           "systemctl start docker";
           "systemctl enable docker";
           "usermod -a -G docker ec2-user";
           "wget https://s3.amazonaws.com/amazoncloudwatch-agent/amazon_linux/amd64/latest/amazon-cloudwatch-agent.rpm";
           "rpm -U ./amazon-cloudwatch-agent.rpm" ].
  eexists.
  split; [vm_compute; reflexivity|].
  split; [reflexivity|].
  do 3 (split; [vm_compute; reflexivity|]).
  split; [reflexivity|].
  split; [vm_compute; reflexivity|].
  repeat constructor.
Qed.

Lemma instances_listen_on_target_port_witness :
  App_has new_App "ScalableBackendStack" = false /\
  exists outcome this,
    ScalableBackendStack new_App "ScalableBackendStack" None
      = (outcome, {| stacks := stacks new_App ++ [this] |}) /\
    instances_serve_target_port (children this).
Proof.
  split; [reflexivity|].
  apply (instances_listen_on_target_port new_App "ScalableBackendStack" None).
  reflexivity.
Defined.
